(** * Data-analysis tool: cleaning pipeline, outlier detector, statistics router

    A shallow embedding of [backend/services/data_cleaning.py],
    [backend/services/statistics.py], the column typing of
    [backend/services/file_handler.py] and the [clean-dataset] endpoint of
    [backend/main.py].

    Numbers.  The Python code computes on IEEE doubles.  Here a finite
    double is a rational [Q] (rounding is abstracted away), and the
    special values that decide the behaviour of the code on degenerate
    columns (NaN, the infinities) are kept: see [Numpy.npfloat].  A
    standard deviation is a square root; it is never formed: a z-score is
    kept as the pair (deviation, variance) and compared with a threshold
    after squaring, see [Scipy.zval].

    Since rounding is abstracted away, a number in a statement stands for
    the double the code computes by the same formula, and what is stated
    of all inputs beyond such values is what holds whatever the rounding:
    which cells are missing, which rows stay, the counts, the labels and
    the order of the answers, and the degenerate cases that end in NaN.
    What depends on comparing a mean, a quantile or a z-score with a
    bound is stated at concrete inputs. *)

From Stdlib Require Import QArith Qround ZArith List String Bool Lia Lqa Sorted.
Import ListNotations.

(** ** Exceptions and results *)

Inductive exn : Type :=
| ValueError (msg : string)
| KeyError (key : string)
| TypeError.

Inductive result (A : Type) : Type :=
| Ok (a : A)
| Raise (e : exn).

Arguments Ok {A} a.
Arguments Raise {A} e.

Definition bind {A B : Type} (r : result A) (k : A -> result B) : result B :=
  match r with
  | Ok a => k a
  | Raise e => Raise e
  end.

Notation "x <- r ;; k" := (bind r (fun x => k))
  (at level 61, r at next level, right associativity).

(** ** numpy scalars *)

Module Numpy.

Definition Qlt_bool (x y : Q) : bool := negb (Qle_bool y x).

(** A double: finite, NaN, or an infinity ([inf true] is the negative one). *)
Inductive npfloat : Type :=
| Finite (q : Q)
| nan
| inf (neg : bool).

Definition isfinite (a : npfloat) : bool :=
  match a with Finite _ => true | _ => false end.

Definition fneg (a : npfloat) : npfloat :=
  match a with
  | Finite x => Finite (- x)
  | nan => nan
  | inf s => inf (negb s)
  end.

Definition fadd (a b : npfloat) : npfloat :=
  match a, b with
  | nan, _ | _, nan => nan
  | Finite x, Finite y => Finite (x + y)
  | inf s, inf t => if Bool.eqb s t then inf s else nan
  | inf s, Finite _ | Finite _, inf s => inf s
  end.

Definition fsub (a b : npfloat) : npfloat := fadd a (fneg b).

Definition fmul (a b : npfloat) : npfloat :=
  match a, b with
  | nan, _ | _, nan => nan
  | Finite x, Finite y => Finite (x * y)
  | inf s, Finite y | Finite y, inf s =>
      if Qeq_bool y 0 then nan else inf (xorb s (Qlt_bool y 0))
  | inf s, inf t => inf (xorb s t)
  end.

(** [a < b]; every comparison with NaN is false. *)
Definition flt (a b : npfloat) : bool :=
  match a, b with
  | nan, _ | _, nan => false
  | Finite x, Finite y => Qlt_bool x y
  | Finite _, inf s => negb s
  | inf s, Finite _ => s
  | inf s, inf t => s && negb t
  end.

Definition fle (a b : npfloat) : bool :=
  match a, b with
  | nan, _ | _, nan => false
  | Finite x, Finite y => Qle_bool x y
  | Finite _, inf s => negb s
  | inf s, Finite _ => s
  | inf s, inf t => s || negb t
  end.

(** [np.int64(a) / b]: true division of integers; dividing by zero
    warns and gives NaN (0/0) or an infinity. *)
Definition true_divide (a b : Z) : npfloat :=
  if (b =? 0)%Z then
    if (a =? 0)%Z then nan else inf (a <? 0)%Z
  else Finite (inject_Z a / inject_Z b).

End Numpy.

(** ** pandas: values, series, frames *)

Module Pandas.
Import Numpy.

Inductive dtype : Type := int64 | float64 | bool_ | datetime64 | object_.

(** One cell.  [Null] is the missing value (NaN / None / NaT).  [Num q] is
    a finite number: a floating cell that holds an infinity is outside the
    embedding. *)
Inductive value : Type :=
| Null
| Num (q : Q)
| Boolean (b : bool)
| Timestamp (t : Z)
| Str (s : string).

Definition isnull (v : value) : bool :=
  match v with Null => true | _ => false end.

(** Equality of cells as [duplicated] sees it: missing values are equal
    to each other, numbers are compared by value. *)
Definition value_eqb (a b : value) : bool :=
  match a, b with
  | Null, Null => true
  | Num x, Num y => Qeq_bool x y
  | Boolean x, Boolean y => Bool.eqb x y
  | Timestamp x, Timestamp y => (x =? y)%Z
  | Str x, Str y => String.eqb x y
  | _, _ => false
  end.

Fixpoint row_eqb (r1 r2 : list value) : bool :=
  match r1, r2 with
  | [], [] => true
  | a :: r1', b :: r2' => value_eqb a b && row_eqb r1' r2'
  | _, _ => false
  end.

(** A series: its dtype and its (index label, value) pairs, in order. *)
Record Series : Type := mkSeries {
  s_dtype : dtype;
  s_items : list (Z * value)
}.

(** A frame: the named, typed columns and the rows, each with its index
    label.  [len(df)] is the number of rows. *)
Record DataFrame : Type := mkDataFrame {
  columns : list (string * dtype);
  rows : list (Z * list value)
}.

Definition len (df : DataFrame) : nat := List.length (rows df).

Definition index (df : DataFrame) : list Z := map fst (rows df).

(** [c in df.columns] *)
Definition has_column (df : DataFrame) (c : string) : bool :=
  existsb (fun p => String.eqb (fst p) c) (columns df).

Fixpoint get_loc (c : string) (cols : list (string * dtype)) : option (nat * dtype) :=
  match cols with
  | [] => None
  | (n, t) :: cols' =>
      if String.eqb n c then Some (O, t)
      else match get_loc c cols' with
           | Some (j, t') => Some (S j, t')
           | None => None
           end
  end.

(** [df[c]]; a missing column raises [KeyError]. *)
Definition getitem (df : DataFrame) (c : string) : result Series :=
  match get_loc c (columns df) with
  | Some (j, t) =>
      Ok (mkSeries t (map (fun r => (fst r, nth j (snd r) Null)) (rows df)))
  | None => Raise (KeyError c)
  end.

(** [Series.dropna()] *)
Definition dropna_series (s : Series) : Series :=
  mkSeries (s_dtype s) (filter (fun p => negb (isnull (snd p))) (s_items s)).

(** [DataFrame.dropna()]: rows with a missing value in any column go. *)
Definition dropna (df : DataFrame) : DataFrame :=
  mkDataFrame (columns df)
    (filter (fun r => negb (existsb isnull (snd r))) (rows df)).

(** [DataFrame.drop_duplicates()]: the first occurrence of each row stays. *)
Fixpoint drop_duplicates_rows (seen : list (list value)) (rs : list (Z * list value))
  : list (Z * list value) :=
  match rs with
  | [] => []
  | r :: rs' =>
      if existsb (row_eqb (snd r)) seen then drop_duplicates_rows seen rs'
      else r :: drop_duplicates_rows (snd r :: seen) rs'
  end.

Definition drop_duplicates (df : DataFrame) : DataFrame :=
  mkDataFrame (columns df) (drop_duplicates_rows [] (rows df)).

(** [df[mask]] with a boolean mask on the same index. *)
Definition boolean_index (df : DataFrame) (mask : list (Z * bool)) : DataFrame :=
  mkDataFrame (columns df)
    (map snd (filter (fun p => snd (fst p)) (combine mask (rows df)))).

(** [pd.Series(b, index=idx)] *)
Definition full (b : bool) (idx : list Z) : list (Z * bool) :=
  map (fun i => (i, b)) idx.

(** [mask[labels] = vals]: assignment by label, one label at a time. *)
Definition setitem_label (mask : list (Z * bool)) (l : Z) (v : bool) : list (Z * bool) :=
  map (fun p => if (fst p =? l)%Z then (fst p, v) else p) mask.

Fixpoint setitem (mask : list (Z * bool)) (labels : list Z) (vals : list bool)
  : list (Z * bool) :=
  match labels, vals with
  | l :: labels', v :: vals' => setitem (setitem_label mask l v) labels' vals'
  | _, _ => mask
  end.

(** *** Numeric kernels on the non-missing values *)

(** The number in a cell of a numeric column. *)
Definition as_number (v : value) : option Q :=
  match v with Num q => Some q | _ => None end.

(** What numpy arithmetic makes of a cell: booleans are promoted. *)
Definition as_float (v : value) : option Q :=
  match v with
  | Num q => Some q
  | Boolean b => Some (if b then 1 else 0)
  | _ => None
  end.

Fixpoint traverse {A B : Type} (f : A -> option B) (l : list A) : option (list B) :=
  match l with
  | [] => Some []
  | a :: l' =>
      match f a, traverse f l' with
      | Some b, Some bs => Some (b :: bs)
      | _, _ => None
      end
  end.

Definition Qsum (xs : list Q) : Q := fold_right Qplus 0 xs.

Definition Qlen (xs : list Q) : Q := inject_Z (Z.of_nat (List.length xs)).

Fixpoint insert_sorted (x : Q) (l : list Q) : list Q :=
  match l with
  | [] => [x]
  | y :: l' => if Qle_bool x y then x :: y :: l' else y :: insert_sorted x l'
  end.

Definition sort (xs : list Q) : list Q := fold_right insert_sorted [] xs.

(** [mean()] of the non-missing numbers; NaN when there is none.  The
    value is exact: neither the rounding nor the overflow of the sum of
    doubles is represented, here and in [median] and [quantile]. *)
Definition mean (xs : list Q) : npfloat :=
  match xs with
  | [] => nan
  | _ => Finite (Qsum xs / Qlen xs)
  end.

(** [median()] of the non-missing numbers; NaN when there is none. *)
Definition median (xs : list Q) : npfloat :=
  match sort xs with
  | [] => nan
  | s =>
      let n := List.length s in
      if Nat.even n
      then Finite ((nth (n / 2 - 1) s 0 + nth (n / 2) s 0) / 2)
      else Finite (nth (n / 2) s 0)
  end.

(** [quantile(q)], linear interpolation between the two neighbours of
    position [(n-1)*q] in the sorted values; NaN on empty data. *)
Definition quantile (xs : list Q) (q : Q) : npfloat :=
  match sort xs with
  | [] => nan
  | s =>
      let n := List.length s in
      let pos := inject_Z (Z.of_nat n - 1) * q in
      let lo := Z.to_nat (Qfloor pos) in
      let hi := Nat.min (S lo) (n - 1) in
      let gamma := pos - inject_Z (Qfloor pos) in
      let a := nth lo s 0 in
      let b := nth hi s 0 in
      Finite (a + (b - a) * gamma)
  end.

(** [Series.quantile(q)]: the values must be numbers. *)
Definition series_quantile (s : Series) (q : Q) : result npfloat :=
  match traverse as_number (map snd (s_items s)) with
  | Some xs => Ok (quantile xs q)
  | None => Raise TypeError
  end.

(** [pd.api.types.is_numeric_dtype]: the integer and floating dtypes and,
    as pandas defines it, the boolean dtype. *)
Definition is_numeric_dtype (t : dtype) : bool :=
  match t with
  | int64 | float64 | bool_ => true
  | datetime64 | object_ => false
  end.

Definition is_datetime64_any_dtype (t : dtype) : bool :=
  match t with datetime64 => true | _ => false end.

Definition is_bool_dtype (t : dtype) : bool :=
  match t with bool_ => true | _ => false end.

(** [select_dtypes(include=[np.number])]: integer and floating columns. *)
Definition is_np_number (t : dtype) : bool :=
  match t with
  | int64 | float64 => true
  | _ => false
  end.

(** The numbers of column [j], missing values skipped. *)
Definition column_numbers (j : nat) (rs : list (Z * list value)) : list Q :=
  flat_map (fun r => match as_number (nth j (snd r) Null) with
                     | Some q => [q]
                     | None => []
                     end) rs.

(** [df[numeric_cols].fillna(df[numeric_cols].agg())]: per numeric
    column, the value that replaces its missing cells (none when the
    column is not numeric or the aggregate is NaN). *)
Fixpoint fill_values (agg : list Q -> npfloat) (j : nat)
         (cols : list (string * dtype)) (rs : list (Z * list value))
  : list (option Q) :=
  match cols with
  | [] => []
  | (_, t) :: cols' =>
      (if is_np_number t
       then match agg (column_numbers j rs) with
            | Finite m => Some m
            | _ => None
            end
       else None) :: fill_values agg (S j) cols' rs
  end.

Fixpoint fill_row (fills : list (option Q)) (r : list value) : list value :=
  match fills, r with
  | Some m :: fills', Null :: r' => Num m :: fill_row fills' r'
  | _ :: fills', v :: r' => v :: fill_row fills' r'
  | [], _ => r
  | _, [] => []
  end.

Definition fillna_numeric (agg : list Q -> npfloat) (df : DataFrame) : DataFrame :=
  let fills := fill_values agg 0 (columns df) (rows df) in
  mkDataFrame (columns df) (map (fun r => (fst r, fill_row fills (snd r))) (rows df)).

End Pandas.

(** ** scipy.stats *)

Module Scipy.
Import Numpy Pandas.

(** A z-score [(x - mean) / std], with [std = sqrt var], kept as the pair
    of its numerator and of the variance under the root.  When the
    variance is 0 the input is constant and the score is NaN (0/0).  The
    comparisons with a threshold below are exact: they are those of the
    code on doubles except within rounding of the threshold. *)
Record zval : Type := mkZ { z_dev : Q; z_var : Q }.

Definition z_isnan (z : zval) : bool := Qeq_bool (z_var z) 0.

(** [np.abs(z) > t] for a threshold [t >= 0]: false on NaN. *)
Definition zabs_gt (z : zval) (t : Q) : bool :=
  negb (z_isnan z) && Qlt_bool (t * t * z_var z) (z_dev z * z_dev z).

(** [np.abs(z) <= t] for a threshold [t >= 0]: false on NaN. *)
Definition zabs_le (z : zval) (t : Q) : bool :=
  negb (z_isnan z) && Qle_bool (z_dev z * z_dev z) (t * t * z_var z).

(** The variance with [ddof] delta degrees of freedom. *)
Definition var (ddof : Z) (xs : list Q) : Q :=
  let mn := Qsum xs / Qlen xs in
  Qsum (map (fun x => (x - mn) * (x - mn)) xs) / (Qlen xs - inject_Z ddof).

(** [stats.zscore(a)], default [ddof=0]: mean and population standard
    deviation of [a]; an empty input gives an empty output. *)
Definition zscore_values (xs : list Q) : list zval :=
  match xs with
  | [] => []
  | _ =>
      let mn := Qsum xs / Qlen xs in
      let v := var 0 xs in
      map (fun x => mkZ (x - mn) v) xs
  end.

Definition zscore (data : Series) : result (list zval) :=
  match s_items data with
  | [] => Ok []
  | items =>
      match traverse as_float (map snd items) with
      | Some xs => Ok (zscore_values xs)
      | None => Raise TypeError
      end
  end.

End Scipy.

(** Python truthiness of an [Optional[str]]: [None] and the empty string
    are false. *)
Definition truthy (s : option string) : bool :=
  match s with
  | Some s' => negb (String.eqb s' "")
  | None => false
  end.

(** ** services/data_cleaning.py *)

Module DataCleaningService.
Import Numpy Pandas Scipy.

(** The report of [detect_outliers].  The z-score report carries
    [threshold], the IQR report carries the two bounds. *)
Record OutlierInfo : Type := mkOutlierInfo {
  method : string;
  threshold : option Z;
  lower_bound : option npfloat;
  upper_bound : option npfloat;
  total_outliers : nat;
  outlier_percentage : npfloat;
  outlier_indices : list Z;
  outlier_values : list value
}.

(** [data[mask]] *)
Definition select (data : Series) (mask : list bool) : list (Z * value) :=
  map fst (filter snd (combine (s_items data) mask)).

(** [mask.sum()] *)
Definition count_true (mask : list bool) : nat :=
  List.length (filter (fun b => b) mask).

(** [data < bound] and [data > bound], cell by cell. *)
Definition value_lt (v : value) (bound : npfloat) : bool :=
  match as_number v with
  | Some x => flt (Finite x) bound
  | None => false
  end.

Definition value_gt (v : value) (bound : npfloat) : bool :=
  match as_number v with
  | Some x => flt bound (Finite x)
  | None => false
  end.

Definition value_ge (v : value) (bound : npfloat) : bool :=
  match as_number v with
  | Some x => fle bound (Finite x)
  | None => false
  end.

Definition value_le (v : value) (bound : npfloat) : bool :=
  match as_number v with
  | Some x => fle (Finite x) bound
  | None => false
  end.

(** [q1 - 1.5 * iqr] and [q3 + 1.5 * iqr] *)
Definition iqr_bounds (q1 q3 : npfloat) : npfloat * npfloat :=
  let iqr := fsub q3 q1 in
  (fsub q1 (fmul (Finite (3 # 2)) iqr), fadd q3 (fmul (Finite (3 # 2)) iqr)).

(** [float((outliers.sum() / len(data)) * 100)] *)
Definition percentage (outliers : list bool) (data : Series) : npfloat :=
  fmul (true_divide (Z.of_nat (count_true outliers))
                    (Z.of_nat (List.length (s_items data))))
       (Finite 100).

Definition detect_outliers (df : DataFrame) (column : string) (method : string)
  : result OutlierInfo :=
  col <- getitem df column ;;
  let data := dropna_series col in
  if String.eqb method "zscore" then
    z_scores <- zscore data ;;
    let outlier_threshold := 3%Z in
    let outliers := map (fun z => zabs_gt z (inject_Z outlier_threshold)) z_scores in
    let outlier_indices := map fst (select data outliers) in
    Ok {| method := "Z-Score";
          threshold := Some outlier_threshold;
          lower_bound := None;
          upper_bound := None;
          total_outliers := count_true outliers;
          outlier_percentage := percentage outliers data;
          outlier_indices := firstn 100 outlier_indices;
          outlier_values := firstn 10 (map snd (select data outliers)) |}
  else if String.eqb method "iqr" then
    q1 <- series_quantile data (1 # 4) ;;
    q3 <- series_quantile data (3 # 4) ;;
    let (lower, upper) := iqr_bounds q1 q3 in
    let outliers :=
      map (fun p => value_lt (snd p) lower || value_gt (snd p) upper) (s_items data) in
    let outlier_indices := map fst (select data outliers) in
    Ok {| method := "IQR";
          threshold := None;
          lower_bound := Some lower;
          upper_bound := Some upper;
          total_outliers := count_true outliers;
          outlier_percentage := percentage outliers data;
          outlier_indices := firstn 100 outlier_indices;
          outlier_values := firstn 10 (map snd (select data outliers)) |}
  else Raise (ValueError "Method must be 'zscore' or 'iqr'").

(** Stage 1 of [clean_dataset]: the [if / elif / elif] on
    [handle_missing]; there is no [else]. *)
Definition handle_missing_values (handle_missing : string) (cleaned_df : DataFrame)
  : DataFrame :=
  if String.eqb handle_missing "drop" then dropna cleaned_df
  else if String.eqb handle_missing "mean" then fillna_numeric mean cleaned_df
  else if String.eqb handle_missing "median" then fillna_numeric median cleaned_df
  else cleaned_df.

(** The mask of the rows of [data] that stay, by method. *)
Definition keep_mask (data : Series) (outlier_method : string) : result (list bool) :=
  if String.eqb outlier_method "zscore" then
    z_scores <- zscore data ;;
    Ok (map (fun z => zabs_le z 3) z_scores)
  else if String.eqb outlier_method "iqr" then
    q1 <- series_quantile data (1 # 4) ;;
    q3 <- series_quantile data (3 # 4) ;;
    let (lower_bound, upper_bound) := iqr_bounds q1 q3 in
    Ok (map (fun p => value_ge (snd p) lower_bound && value_le (snd p) upper_bound)
            (s_items data))
  else Raise (ValueError "Method must be 'zscore' or 'iqr'").

(** Stage 3 of [clean_dataset], entered when
    [remove_outliers and outlier_column] holds. *)
Definition remove_outlier_rows (cleaned_df : DataFrame) (outlier_column : string)
           (outlier_method : string) : result DataFrame :=
  if negb (has_column cleaned_df outlier_column) then
    Raise (ValueError ("Column '" ++ outlier_column ++ "' not found"))
  else
    col <- getitem cleaned_df outlier_column ;;
    let data := dropna_series col in
    outlier_mask <- keep_mask data outlier_method ;;
    let full_mask := full true (index cleaned_df) in
    let full_mask := setitem full_mask (map fst (s_items data)) outlier_mask in
    Ok (boolean_index cleaned_df full_mask).

Definition clean_dataset (df : DataFrame) (handle_missing : string)
           (remove_duplicates remove_outliers : bool)
           (outlier_column : option string) (outlier_method : string)
  : result DataFrame :=
  let cleaned_df := df in
  let cleaned_df := handle_missing_values handle_missing cleaned_df in
  let cleaned_df :=
    if remove_duplicates then drop_duplicates cleaned_df else cleaned_df in
  if remove_outliers && truthy outlier_column then
    match outlier_column with
    | Some c => remove_outlier_rows cleaned_df c outlier_method
    | None => Ok cleaned_df
    end
  else Ok cleaned_df.

(** *** [detect_missing_values] *)

Record ColumnMissing : Type := mkColumnMissing {
  cm_count : nat;
  cm_percentage : npfloat
}.

Record MissingInfo : Type := mkMissingInfo {
  total_missing : nat;
  total_cells : nat;
  columns_with_missing : list (string * ColumnMissing)
}.

(** [df.isnull().sum()] for the column at position [j]. *)
Definition missing_count (j : nat) (rs : list (Z * list value)) : nat :=
  List.length (filter (fun r => isnull (nth j (snd r) Null)) rs).

(** [(df.isnull().sum() / len(df)) * 100] for the column at position [j]. *)
Definition missing_percent (j : nat) (rs : list (Z * list value)) : npfloat :=
  fmul (true_divide (Z.of_nat (missing_count j rs)) (Z.of_nat (List.length rs)))
       (Finite 100).

(** [missing_count.sum()] over the columns from position [j] on. *)
Fixpoint missing_total (j : nat) (cols : list (string * dtype))
         (rs : list (Z * list value)) : nat :=
  match cols with
  | [] => O
  | _ :: cols' => (missing_count j rs + missing_total (S j) cols' rs)%nat
  end.

(** The loop over [df.columns]: a column enters the dictionary when its
    count is positive. *)
Fixpoint missing_columns (j : nat) (cols : list (string * dtype))
         (rs : list (Z * list value)) : list (string * ColumnMissing) :=
  match cols with
  | [] => []
  | (col, _) :: cols' =>
      if (0 <? missing_count j rs)%nat
      then (col, {| cm_count := missing_count j rs;
                    cm_percentage := missing_percent j rs |})
             :: missing_columns (S j) cols' rs
      else missing_columns (S j) cols' rs
  end.

Definition detect_missing_values (df : DataFrame) : MissingInfo :=
  {| total_missing := missing_total 0 (columns df) (rows df);
     total_cells := (List.length (rows df) * List.length (columns df))%nat;
     columns_with_missing := missing_columns 0 (columns df) (rows df) |}.

(** *** [detect_duplicates] *)

Record DuplicateInfo : Type := mkDuplicateInfo {
  total_duplicates : nat;
  total_rows : nat;
  duplicate_percentage : npfloat;
  duplicate_indices : list Z
}.

(** [df.duplicated()]: a row is marked when an equal row came before it. *)
Fixpoint duplicated_first (seen : list (list value)) (rs : list (Z * list value))
  : list bool :=
  match rs with
  | [] => []
  | r :: rs' =>
      if existsb (row_eqb (snd r)) seen then true :: duplicated_first seen rs'
      else false :: duplicated_first (snd r :: seen) rs'
  end.

(** [df.duplicated(keep=False)]: a row is marked when its value occurs at
    least twice in the frame. *)
Definition duplicated_all (rs : list (Z * list value)) : list bool :=
  map (fun r =>
         (2 <=? List.length (filter (fun r' => row_eqb (snd r) (snd r')) rs))%nat)
      rs.

Definition detect_duplicates (df : DataFrame) : DuplicateInfo :=
  let total_duplicates := count_true (duplicated_first [] (rows df)) in
  {| total_duplicates := total_duplicates;
     total_rows := len df;
     duplicate_percentage :=
       if (0 <? len df)%nat
       then fmul (true_divide (Z.of_nat total_duplicates) (Z.of_nat (len df)))
                 (Finite 100)
       else Finite 0;
     duplicate_indices :=
       firstn 100
         (map fst (map fst (filter snd (combine (rows df)
                                                (duplicated_all (rows df)))))) |}.

End DataCleaningService.

(** ** main.py: the clean-dataset endpoint *)

Module Main.
Import Pandas.

Inductive http (A : Type) : Type :=
| Response (body : A)
| HTTPException (status_code : Z) (detail : exn).

Arguments Response {A} body.
Arguments HTTPException {A} status_code detail.

Record CleanResponse : Type := mkCleanResponse {
  success : bool;
  rows_before : Z;
  rows_after : Z;
  rows_removed : Z;
  data : list (list value)
}.

(** [POST /api/cleaning/clean-dataset], after the file is loaded. *)
Definition clean_dataset (df : DataFrame) (handle_missing : string)
           (remove_duplicates remove_outliers : bool)
           (outlier_column : option string) (outlier_method : string)
  : http CleanResponse :=
  match DataCleaningService.clean_dataset df handle_missing remove_duplicates
          remove_outliers outlier_column outlier_method with
  | Ok cleaned_df =>
      Response {| success := true;
                  rows_before := Z.of_nat (len df);
                  rows_after := Z.of_nat (len cleaned_df);
                  rows_removed := Z.of_nat (len df) - Z.of_nat (len cleaned_df);
                  data := map snd (rows cleaned_df) |}
  | Raise e => HTTPException 400 e
  end.

End Main.

(** ** services/statistics.py *)

Module StatisticsService.
Import Numpy Pandas Scipy.

(** The numeric summary.  The standard deviation is carried by its
    square, the sample variance; skewness, kurtosis, the normality test
    and the PDF/CDF samples are scipy kernels on doubles and are not part
    of this record. *)
Record NumericSummary : Type := mkNumericSummary {
  n_count : nat;
  n_mean : npfloat;
  n_median : npfloat;
  n_variance : npfloat;
  n_min : Q;
  n_max : Q;
  n_q1 : npfloat;
  n_q3 : npfloat;
  n_iqr : npfloat
}.

Record CategoricalSummary : Type := mkCategoricalSummary {
  c_count : nat;
  unique_values : nat;
  most_common : option value;
  value_counts : list (value * nat);
  mode_frequency : nat
}.

(** One entry of the result dictionary: the ["type": "numeric"] summary,
    the [{"error": "No numeric data available"}] marker, or the
    ["type": "categorical"] summary. *)
Inductive ColumnStatistics : Type :=
| Numeric (s : NumericSummary)
| NoNumericData
| Categorical (c : CategoricalSummary).

(** [data.var()]: sample variance, NaN for a single value (0/0). *)
Definition sample_variance (xs : list Q) : npfloat :=
  if (List.length xs <=? 1)%nat then nan else Finite (var 1 xs).

Definition Qmin_list (xs : list Q) : Q := nth 0 (sort xs) 0.
Definition Qmax_list (xs : list Q) : Q := last (sort xs) 0.

Definition _numeric_statistics (series : Series) : result ColumnStatistics :=
  let data := dropna_series series in
  if (List.length (s_items data) =? 0)%nat then Ok NoNumericData
  else
    match traverse as_number (map snd (s_items data)) with
    | None => Raise TypeError
    | Some xs =>
        let q1 := quantile xs (1 # 4) in
        let q3 := quantile xs (3 # 4) in
        Ok (Numeric {| n_count := List.length xs;
                       n_mean := mean xs;
                       n_median := median xs;
                       n_variance := sample_variance xs;
                       n_min := Qmin_list xs;
                       n_max := Qmax_list xs;
                       n_q1 := q1;
                       n_q3 := q3;
                       n_iqr := fsub q3 q1 |})
    end.

(** [series.value_counts()]: the distinct values with their counts, most
    frequent first; among equal counts the value seen first comes first. *)
Fixpoint add_count (v : value) (acc : list (value * nat)) : list (value * nat) :=
  match acc with
  | [] => [(v, 1%nat)]
  | (w, k) :: acc' =>
      if value_eqb w v then (w, S k) :: acc' else (w, k) :: add_count v acc'
  end.

Fixpoint insert_by_count (e : value * nat) (l : list (value * nat))
  : list (value * nat) :=
  match l with
  | [] => [e]
  | f :: l' =>
      if (snd f <? snd e)%nat then e :: f :: l' else f :: insert_by_count e l'
  end.

Definition value_counts_of (vs : list value) : list (value * nat) :=
  let counted := fold_left (fun acc v => add_count v acc) vs [] in
  fold_left (fun acc e => insert_by_count e acc) counted [].

(** The order in which [mode()] sorts its result. *)
Definition value_leb (a b : value) : bool :=
  match a, b with
  | Num x, Num y => Qle_bool x y
  | Boolean x, Boolean y => implb x y
  | Timestamp x, Timestamp y => (x <=? y)%Z
  | Str x, Str y => String.leb x y
  | _, _ => true
  end.

(** [series.mode()[0]]: the least of the most frequent values. *)
Definition mode0 (counts : list (value * nat)) : option value :=
  match counts with
  | [] => None
  | (v, k) :: rest =>
      Some (fold_left
              (fun best e =>
                 if (snd e =? k)%nat && negb (value_leb best (fst e))
                 then fst e else best)
              rest v)
  end.

Definition _categorical_statistics (series : Series) : CategoricalSummary :=
  let vs := map snd (s_items series) in
  let value_counts := value_counts_of (filter (fun v => negb (isnull v)) vs) in
  {| c_count := List.length vs;
     unique_values := List.length value_counts;
     most_common := mode0 value_counts;
     value_counts := firstn 10 value_counts;
     mode_frequency := match value_counts with
                       | (_, k) :: _ => k
                       | [] => O
                       end |}.

(** The branch on [pd.api.types.is_numeric_dtype(col_data)]. *)
Definition column_statistics (col_data : Series) : result ColumnStatistics :=
  if is_numeric_dtype (s_dtype col_data)
  then _numeric_statistics col_data
  else Ok (Categorical (_categorical_statistics col_data)).

Fixpoint all_columns (df : DataFrame) (cols : list (string * dtype))
  : result (list (string * ColumnStatistics)) :=
  match cols with
  | [] => Ok []
  | (col, _) :: cols' =>
      s <- getitem df col ;;
      st <- column_statistics (dropna_series s) ;;
      rest <- all_columns df cols' ;;
      Ok ((col, st) :: rest)
  end.

Definition calculate_statistics (df : DataFrame) (column : option string)
  : result (list (string * ColumnStatistics)) :=
  if truthy column then
    match column with
    | Some c =>
        if negb (has_column df c) then
          Raise (ValueError ("Column '" ++ c ++ "' not found"))
        else
          s <- getitem df c ;;
          st <- column_statistics (dropna_series s) ;;
          Ok [(c, st)]
    | None => Ok []
    end
  else all_columns df (columns df).

End StatisticsService.

(** ** services/file_handler.py: the derived column type *)

Module FileHandler.
Import Pandas.

Inductive col_type : Type := numeric | datetime | boolean | categorical.

(** The cascade of [get_column_info]. *)
Definition column_type (t : dtype) : col_type :=
  if is_numeric_dtype t then numeric
  else if is_datetime64_any_dtype t then datetime
  else if is_bool_dtype t then boolean
  else categorical.

Record ColumnInfo : Type := mkColumnInfo {
  type : col_type;
  dtype_of : dtype;
  non_null_count : nat;
  null_count : nat;
  unique_count : nat;
  sample_values : list value
}.

(** The entry of [get_column_info] for one column. *)
Definition column_info (s : Series) : ColumnInfo :=
  let vs := map snd (s_items s) in
  {| type := column_type (s_dtype s);
     dtype_of := s_dtype s;
     non_null_count := List.length (filter (fun v => negb (isnull v)) vs);
     null_count := List.length (filter isnull vs);
     unique_count :=
       List.length (StatisticsService.value_counts_of
                      (filter (fun v => negb (isnull v)) vs));
     sample_values := firstn 3 (map snd (s_items (dropna_series s))) |}.

Fixpoint column_infos (df : DataFrame) (cols : list (string * dtype))
  : result (list (string * ColumnInfo)) :=
  match cols with
  | [] => Ok []
  | (col, _) :: cols' =>
      s <- getitem df col ;;
      rest <- column_infos df cols' ;;
      Ok ((col, column_info s) :: rest)
  end.

Definition get_column_info (df : DataFrame) : result (list (string * ColumnInfo)) :=
  column_infos df (columns df).

End FileHandler.

(** ** The specification's own notions, to be compared with the code *)

Module Spec.
Import Numpy Pandas Scipy.

(** The semantic type of a column as the data model lists them: numeric,
    categorical/text, boolean, datetime. *)
Definition semantic_type (t : dtype) : FileHandler.col_type :=
  match t with
  | int64 | float64 => FileHandler.numeric
  | bool_ => FileHandler.boolean
  | datetime64 => FileHandler.datetime
  | object_ => FileHandler.categorical
  end.



(** A cell of a numeric column whose non-missing values all equal [v]. *)
Definition constant_cell (v : Q) (x : value) : Prop :=
  exists q, x = Num q /\ q == v.

(** No cell of the frame is missing. *)
Definition null_free (df : DataFrame) : Prop :=
  forall r v, In r (rows df) -> In v (snd r) -> v <> Null.

(** Every row has one cell per column. *)
Definition rectangular (df : DataFrame) : Prop :=
  forall r, In r (rows df) -> List.length (snd r) = List.length (columns df).

(** What [fillna] makes of one cell when the aggregate of its column is
    [a]: a missing cell takes a finite aggregate, any other cell stays. *)
Definition fill_cell (a : npfloat) (v : value) : value :=
  match a, v with
  | Finite m, Null => Num m
  | _, _ => v
  end.

(** The value a boolean series with values [g] carries at label [i] after
    the assignment [mask[labels] = vals]. *)
Fixpoint assigned (g : Z -> bool) (labels : list Z) (vals : list bool) (i : Z)
  : bool :=
  match labels, vals with
  | l :: labels', v :: vals' =>
      assigned (fun i' => if (i' =? l)%Z then v else g i') labels' vals' i
  | _, _ => g i
  end.

(** The order of a frequency table: the more frequent entry first. *)
Definition by_count (e f : value * nat) : Prop := (snd f <= snd e)%nat.

(** Some row of the list is equal to an earlier one. *)
Fixpoint repeated_row (rs : list (Z * list value)) : bool :=
  match rs with
  | [] => false
  | r :: rs' =>
      existsb (fun r' => row_eqb (snd r') (snd r)) rs' || repeated_row rs'
  end.

End Spec.

(** ** Concrete frames used by the examples *)

Module Examples.
Import Pandas.

(** A frame with the single float column ["x"] and a range index. *)
Definition single_column (t : dtype) (vs : list value) : DataFrame :=
  mkDataFrame [("x"%string, t)]
    (combine (map Z.of_nat (seq 0 (List.length vs))) (map (fun v => [v]) vs)).

(** The column [1, 2, 3, 4, 5, 100]. *)
Definition spec_column : DataFrame :=
  single_column float64 (map Num [1; 2; 3; 4; 5; 100]).

(** The series [spec_column["x"]]. *)
Definition spec_series : Series :=
  mkSeries float64
    (combine (map Z.of_nat (seq 0 6)) (map Num [1; 2; 3; 4; 5; 100])).

(** The numeric summary of [spec_series]. *)
Definition spec_summary : StatisticsService.NumericSummary :=
  {| StatisticsService.n_count := 6;
     StatisticsService.n_mean := mean [1; 2; 3; 4; 5; 100];
     StatisticsService.n_median := median [1; 2; 3; 4; 5; 100];
     StatisticsService.n_variance :=
       StatisticsService.sample_variance [1; 2; 3; 4; 5; 100];
     StatisticsService.n_min := 1;
     StatisticsService.n_max := 100;
     StatisticsService.n_q1 := quantile [1; 2; 3; 4; 5; 100] (1 # 4);
     StatisticsService.n_q3 := quantile [1; 2; 3; 4; 5; 100] (3 # 4);
     StatisticsService.n_iqr :=
       Numpy.fsub (quantile [1; 2; 3; 4; 5; 100] (3 # 4))
                  (quantile [1; 2; 3; 4; 5; 100] (1 # 4)) |}.


(** A column whose cells are all missing. *)
Definition all_null_column : DataFrame := single_column float64 [Null; Null].

(** Two columns: distinct ids, and a constant measurement. *)
Definition constant_frame : DataFrame :=
  mkDataFrame [("id"%string, int64); ("x"%string, float64)]
    [(0%Z, [Num 1; Num 5]); (1%Z, [Num 2; Num 5]); (2%Z, [Num 3; Num 5])].

(** A frame with a missing cell. *)
Definition frame_with_null : DataFrame :=
  mkDataFrame [("id"%string, int64); ("x"%string, float64)]
    [(0%Z, [Num 1; Num 5]); (1%Z, [Num 2; Null]); (2%Z, [Num 3; Num 7])].

(** A boolean column. *)
Definition boolean_column : DataFrame :=
  single_column bool_ [Boolean true; Boolean false; Boolean true].

(** The series [boolean_column["x"]]. *)
Definition boolean_series : Series :=
  mkSeries bool_ [(0%Z, Boolean true); (1%Z, Boolean false); (2%Z, Boolean true)].

(** A text column. *)
Definition text_column : DataFrame :=
  single_column object_ [Str "a"; Str "b"; Null; Str "b"].

End Examples.

(** * Properties *)

Import Numpy Pandas Scipy.

(** ** Row counts through the pipeline *)

Section RowCounts.

Lemma drop_duplicates_rows_length (rs : list (Z * list value)) :
  forall seen, (List.length (drop_duplicates_rows seen rs) <= List.length rs)%nat.
Proof.
  induction rs as [|r rs IH]; intros seen; simpl.
  - lia.
  - destruct (existsb (row_eqb (snd r)) seen); simpl.
    + specialize (IH seen). lia.
    + specialize (IH (snd r :: seen)). lia.
Qed.

Lemma drop_duplicates_len (df : DataFrame) :
  (len (drop_duplicates df) <= len df)%nat.
Proof. apply drop_duplicates_rows_length. Qed.

Lemma dropna_len (df : DataFrame) : (len (dropna df) <= len df)%nat.
Proof. unfold len, dropna; simpl. apply filter_length_le. Qed.

Lemma fillna_numeric_len (agg : list Q -> npfloat) (df : DataFrame) :
  len (fillna_numeric agg df) = len df.
Proof. unfold len, fillna_numeric; simpl. apply length_map. Qed.

Lemma handle_missing_values_len (hm : string) (df : DataFrame) :
  (len (DataCleaningService.handle_missing_values hm df) <= len df)%nat.
Proof.
  unfold DataCleaningService.handle_missing_values.
  destruct (String.eqb hm "drop"); [apply dropna_len|].
  destruct (String.eqb hm "mean"); [rewrite fillna_numeric_len; lia|].
  destruct (String.eqb hm "median"); [rewrite fillna_numeric_len; lia|].
  lia.
Qed.

Lemma boolean_index_len (df : DataFrame) (mask : list (Z * bool)) :
  (len (boolean_index df mask) <= len df)%nat.
Proof.
  unfold len, boolean_index; simpl. rewrite length_map.
  etransitivity; [apply filter_length_le|].
  rewrite length_combine. apply Nat.le_min_r.
Qed.

Lemma remove_outlier_rows_len (df cleaned : DataFrame) (c m : string) :
  DataCleaningService.remove_outlier_rows df c m = Ok cleaned ->
  (len cleaned <= len df)%nat.
Proof.
  unfold DataCleaningService.remove_outlier_rows.
  destruct (negb (has_column df c)); [discriminate|].
  destruct (getitem df c) as [s|e]; simpl; [|discriminate].
  destruct (DataCleaningService.keep_mask (dropna_series s) m) as [k|e];
    simpl; [|discriminate].
  intros H; injection H as <-. apply boolean_index_len.
Qed.

Lemma clean_dataset_len df hm rd ro oc om cleaned :
  DataCleaningService.clean_dataset df hm rd ro oc om = Ok cleaned ->
  (len cleaned <= len df)%nat.
Proof.
  unfold DataCleaningService.clean_dataset.
  set (d1 := DataCleaningService.handle_missing_values hm df).
  set (d2 := if rd then drop_duplicates d1 else d1).
  assert (H2 : (len d2 <= len df)%nat).
  { pose proof (handle_missing_values_len hm df) as H1. fold d1 in H1.
    subst d2. destruct rd; [|exact H1].
    pose proof (drop_duplicates_len d1). lia. }
  destruct (ro && truthy oc).
  - destruct oc as [c|].
    + intros H. apply remove_outlier_rows_len in H. lia.
    + intros H; injection H as <-. exact H2.
  - intros H; injection H as <-. exact H2.
Qed.

End RowCounts.

(** C1.  Whenever the clean-dataset endpoint answers, the rows it returns
    number [rows_before - rows_removed], [rows_before] is the length of the
    input, and [rows_removed] is not negative: the cleaned dataset never has
    more rows than the input. *)
Theorem clean_dataset_rows_removed :
  forall df hm rd ro oc om r,
    Main.clean_dataset df hm rd ro oc om = Main.Response r ->
    Main.rows_before r = Z.of_nat (len df) /\
    Z.of_nat (List.length (Main.data r)) = Main.rows_after r /\
    (Main.rows_after r = Main.rows_before r - Main.rows_removed r)%Z /\
    (0 <= Main.rows_removed r)%Z /\
    (List.length (Main.data r) <= len df)%nat.
Proof.
  intros df hm rd ro oc om r. unfold Main.clean_dataset.
  destruct (DataCleaningService.clean_dataset df hm rd ro oc om) as [cleaned|e] eqn:E;
    [|discriminate].
  intros H; injection H as <-. simpl.
  apply clean_dataset_len in E. unfold len in *.
  rewrite length_map. repeat split; lia.
Qed.

Lemma clean_dataset_rows_removed_witness :
  exists r,
    Main.clean_dataset Examples.frame_with_null "drop" true false None "zscore"
      = Main.Response r /\
    (Main.rows_before r = Z.of_nat (len Examples.frame_with_null) /\
     Z.of_nat (List.length (Main.data r)) = Main.rows_after r /\
     (Main.rows_after r = Main.rows_before r - Main.rows_removed r)%Z /\
     (0 <= Main.rows_removed r)%Z /\
     (List.length (Main.data r) <= len Examples.frame_with_null)%nat).
Proof.
  eexists. split; [reflexivity|].
  apply (clean_dataset_rows_removed Examples.frame_with_null
           "drop" true false None "zscore" _).
  reflexivity.
Defined.

(** ** Which rows survive *)

Section Survivors.

Lemma drop_duplicates_rows_In (rs : list (Z * list value)) :
  forall seen r, In r (drop_duplicates_rows seen rs) -> In r rs.
Proof.
  induction rs as [|a rs IH]; intros seen r; simpl; [tauto|].
  destruct (existsb (row_eqb (snd a)) seen); simpl.
  - intros H. right. eapply IH, H.
  - intros [H|H]; [left; exact H | right; eapply IH, H].
Qed.

Lemma boolean_index_In (df : DataFrame) (mask : list (Z * bool)) r :
  In r (rows (boolean_index df mask)) -> In r (rows df).
Proof.
  unfold boolean_index; simpl. rewrite in_map_iff.
  intros ([m r'] & Hr & Hin). simpl in Hr. subst r'.
  apply filter_In in Hin. destruct Hin as [Hin _].
  eapply in_combine_r, Hin.
Qed.

Lemma remove_outlier_rows_In (df cleaned : DataFrame) (c m : string) r :
  DataCleaningService.remove_outlier_rows df c m = Ok cleaned ->
  In r (rows cleaned) -> In r (rows df).
Proof.
  unfold DataCleaningService.remove_outlier_rows.
  destruct (negb (has_column df c)); [discriminate|].
  destruct (getitem df c) as [s|e]; simpl; [|discriminate].
  destruct (DataCleaningService.keep_mask (dropna_series s) m) as [k|e];
    simpl; [|discriminate].
  intros H; injection H as <-. apply boolean_index_In.
Qed.

Lemma dropna_null_free (df : DataFrame) : Spec.null_free (dropna df).
Proof.
  intros r v Hr Hv Hnull. unfold dropna in Hr; simpl in Hr.
  apply filter_In in Hr. destruct Hr as [_ Hr].
  apply negb_true_iff in Hr.
  assert (E : existsb isnull (snd r) = true).
  { apply existsb_exists. exists v. split; [exact Hv|]. subst v. reflexivity. }
  congruence.
Qed.

(** Stages 2 and 3 only take rows away. *)
Lemma later_stages_In df hm rd ro oc om cleaned r :
  DataCleaningService.clean_dataset df hm rd ro oc om = Ok cleaned ->
  In r (rows cleaned) ->
  In r (rows (DataCleaningService.handle_missing_values hm df)).
Proof.
  unfold DataCleaningService.clean_dataset.
  set (d1 := DataCleaningService.handle_missing_values hm df).
  set (d2 := if rd then drop_duplicates d1 else d1).
  assert (H2 : In r (rows d2) -> In r (rows d1)).
  { subst d2. destruct rd; [|tauto]. apply drop_duplicates_rows_In. }
  destruct (ro && truthy oc).
  - destruct oc as [c|].
    + intros H Hr. apply H2. eapply remove_outlier_rows_In; eassumption.
    + intros H; injection H as <-. exact H2.
  - intros H; injection H as <-. exact H2.
Qed.

End Survivors.

(** C10.  With [handle_missing = "drop"], whatever the duplicate and outlier
    settings, a dataset returned by [clean_dataset] has no missing cell in
    any column: its rows are rows of the null-dropped input. *)
Theorem clean_dataset_drop_null_free :
  forall df rd ro oc om cleaned,
    DataCleaningService.clean_dataset df "drop" rd ro oc om = Ok cleaned ->
    Spec.null_free cleaned /\
    (forall r, In r (rows cleaned) -> In r (rows df)).
Proof.
  intros df rd ro oc om cleaned H. split.
  - intros r v Hr Hv.
    pose proof (later_stages_In _ _ _ _ _ _ _ _ H Hr) as Hd.
    change (DataCleaningService.handle_missing_values "drop" df) with (dropna df) in Hd.
    eapply dropna_null_free; eassumption.
  - intros r Hr.
    pose proof (later_stages_In _ _ _ _ _ _ _ _ H Hr) as Hd.
    change (DataCleaningService.handle_missing_values "drop" df) with (dropna df) in Hd.
    unfold dropna in Hd; simpl in Hd. apply filter_In in Hd. tauto.
Qed.

Lemma clean_dataset_drop_null_free_witness :
  exists cleaned,
    DataCleaningService.clean_dataset Examples.frame_with_null
      "drop" true true (Some "x"%string) "iqr" = Ok cleaned /\
    len cleaned = 2%nat /\
    Spec.null_free cleaned /\
    (forall r, In r (rows cleaned) -> In r (rows Examples.frame_with_null)).
Proof.
  eexists. split; [vm_compute; reflexivity|]. split; [reflexivity|].
  apply (clean_dataset_drop_null_free Examples.frame_with_null
           true true (Some "x"%string) "iqr" _).
  vm_compute. reflexivity.
Defined.

(** ** The missing-value policy *)

Lemma handle_missing_values_unknown (hm : string) (df : DataFrame) :
  String.eqb hm "drop" = false ->
  String.eqb hm "mean" = false ->
  String.eqb hm "median" = false ->
  DataCleaningService.handle_missing_values hm df = df.
Proof.
  intros H1 H2 H3. unfold DataCleaningService.handle_missing_values.
  rewrite H1, H2, H3. reflexivity.
Qed.

Lemma clean_dataset_unknown_policy (hm : string) (df : DataFrame) oc om :
  String.eqb hm "drop" = false ->
  String.eqb hm "mean" = false ->
  String.eqb hm "median" = false ->
  DataCleaningService.clean_dataset df hm false false oc om = Ok df.
Proof.
  intros H1 H2 H3. unfold DataCleaningService.clean_dataset.
  rewrite (handle_missing_values_unknown hm df H1 H2 H3). reflexivity.
Qed.

(** C3.  The claim asks for an error on an unrecognised missing-value
    policy.  The code has no such branch: with [handle_missing = "none"] the
    frame with a missing cell comes back as it went in, the missing cell
    included, and the later stages run. *)
Theorem clean_dataset_unknown_policy_is_silent :
  DataCleaningService.clean_dataset Examples.frame_with_null
    "none" true false None "zscore" = Ok Examples.frame_with_null /\
  ~ Spec.null_free Examples.frame_with_null.
Proof.
  split; [vm_compute; reflexivity|].
  intros H.
  apply (H (1%Z, [Num 2; Null]) Null); simpl; auto.
Qed.

(** ** The target column of outlier removal *)

Lemma handle_missing_values_columns (hm : string) (df : DataFrame) :
  columns (DataCleaningService.handle_missing_values hm df) = columns df.
Proof.
  unfold DataCleaningService.handle_missing_values.
  destruct (String.eqb hm "drop"); [reflexivity|].
  destruct (String.eqb hm "mean"); [reflexivity|].
  destruct (String.eqb hm "median"); reflexivity.
Qed.

Lemma has_column_columns (d1 d2 : DataFrame) (c : string) :
  columns d1 = columns d2 -> has_column d1 c = has_column d2 c.
Proof. unfold has_column. intros ->. reflexivity. Qed.

(** The frame that reaches stage 3 has the columns of the input. *)
Lemma stage2_columns (hm : string) (rd : bool) (df : DataFrame) :
  columns (if rd
           then drop_duplicates (DataCleaningService.handle_missing_values hm df)
           else DataCleaningService.handle_missing_values hm df) = columns df.
Proof. destruct rd; simpl; apply handle_missing_values_columns. Qed.

(** C4, as the code has it.  A missing or empty target column does not make
    [clean_dataset] fail: the guard [remove_outliers and outlier_column]
    skips the stage. *)
Lemma clean_dataset_missing_target_is_skipped :
  DataCleaningService.clean_dataset Examples.constant_frame
    "drop" true true None "zscore" = Ok Examples.constant_frame /\
  DataCleaningService.clean_dataset Examples.constant_frame
    "drop" true true (Some ""%string) "zscore" = Ok Examples.constant_frame.
Proof. split; vm_compute; reflexivity. Qed.

(** C4, amended.  With outlier removal enabled and a target column that is
    absent or empty, [clean_dataset] does not fail: it returns what it returns
    with outlier removal disabled (stage 3 is skipped).  With a non-empty
    target column that the dataset does not have, it fails with the
    column-not-found error. *)
Theorem clean_dataset_outlier_target :
  forall df hm rd oc om,
    (truthy oc = false ->
       DataCleaningService.clean_dataset df hm rd true oc om
         = DataCleaningService.clean_dataset df hm rd false oc om /\
       exists cleaned,
         DataCleaningService.clean_dataset df hm rd true oc om = Ok cleaned) /\
    (forall c, oc = Some c -> c <> ""%string -> has_column df c = false ->
       DataCleaningService.clean_dataset df hm rd true oc om
         = Raise (ValueError ("Column '" ++ c ++ "' not found"))).
Proof.
  intros df hm rd oc om. split.
  - intros Ht. unfold DataCleaningService.clean_dataset.
    rewrite Ht. simpl. split; [reflexivity|]. eexists; reflexivity.
  - intros c -> Hc Hno. unfold DataCleaningService.clean_dataset.
    assert (Ht : truthy (Some c) = true).
    { simpl. apply negb_true_iff. apply String.eqb_neq. exact Hc. }
    rewrite Ht. simpl.
    unfold DataCleaningService.remove_outlier_rows.
    rewrite (has_column_columns _ df c (stage2_columns hm rd df)).
    rewrite Hno. reflexivity.
Qed.

Lemma clean_dataset_outlier_target_witness :
  (DataCleaningService.clean_dataset Examples.constant_frame
     "mean" true true None "iqr"
   = DataCleaningService.clean_dataset Examples.constant_frame
       "mean" true false None "iqr" /\
   exists cleaned,
     DataCleaningService.clean_dataset Examples.constant_frame
       "mean" true true None "iqr" = Ok cleaned) /\
  DataCleaningService.clean_dataset Examples.constant_frame
    "mean" true true (Some "y"%string) "iqr"
  = Raise (ValueError ("Column '" ++ "y" ++ "' not found")).
Proof.
  split.
  - apply (proj1 (clean_dataset_outlier_target Examples.constant_frame
                    "mean" true None "iqr")).
    reflexivity.
  - apply (proj2 (clean_dataset_outlier_target Examples.constant_frame
                    "mean" true (Some "y"%string) "iqr") "y"%string).
    + reflexivity.
    + discriminate.
    + reflexivity.
Defined.

(** ** Outlier detection on degenerate columns *)

(** A column without any non-missing value: both methods divide the
    outlier count by a length of zero. *)
Lemma percentage_empty (outliers : list bool) (data : Series) :
  s_items data = [] -> outliers = [] ->
  DataCleaningService.percentage outliers data = nan.
Proof. intros H1 H2. unfold DataCleaningService.percentage. rewrite H1, H2. reflexivity. Qed.

(** C6.  The claim asks for a percentage of 0 on a column without
    non-missing values.  The code divides 0 by 0: on the all-missing column
    both methods report NaN as [outlier_percentage] (and the IQR bounds are
    NaN as well). *)
Theorem detect_outliers_all_null_percentage :
  (exists info,
      DataCleaningService.detect_outliers Examples.all_null_column "x" "zscore"
        = Ok info /\
      DataCleaningService.total_outliers info = 0%nat /\
      DataCleaningService.outlier_percentage info = nan /\
      isfinite (DataCleaningService.outlier_percentage info) = false) /\
  (exists info,
      DataCleaningService.detect_outliers Examples.all_null_column "x" "iqr"
        = Ok info /\
      DataCleaningService.total_outliers info = 0%nat /\
      DataCleaningService.outlier_percentage info = nan /\
      isfinite (DataCleaningService.outlier_percentage info) = false /\
      DataCleaningService.lower_bound info = Some nan /\
      DataCleaningService.upper_bound info = Some nan).
Proof.
  split; eexists; (split; [vm_compute; reflexivity|]); simpl; repeat split.
Qed.

(** C8.  The claim asks that exactly the flagged rows go.  On a constant
    target column every z-score is NaN: [detect_outliers] flags nothing
    ([NaN > 3] is false), yet the z-score branch of [clean_dataset] keeps
    the rows with [|z| <= 3], which is false on NaN too, and removes every
    row. *)
Theorem clean_dataset_zscore_constant_column :
  (exists info,
      DataCleaningService.detect_outliers Examples.constant_frame "x" "zscore"
        = Ok info /\
      DataCleaningService.total_outliers info = 0%nat /\
      DataCleaningService.outlier_indices info = []) /\
  len Examples.constant_frame = 3%nat /\
  DataCleaningService.clean_dataset Examples.constant_frame
    "drop" true true (Some "x"%string) "zscore"
  = Ok (mkDataFrame (columns Examples.constant_frame) []).
Proof.
  split; [eexists; split; [vm_compute; reflexivity|]; simpl; split; reflexivity|].
  split; vm_compute; reflexivity.
Qed.

Section ConstantColumn.

Variable v : Q.

Lemma traverse_constant (vals : list value) :
  Forall (Spec.constant_cell v) vals ->
  exists xs,
    traverse as_number vals = Some xs /\
    traverse as_float vals = Some xs /\
    Forall (fun q => q == v) xs /\
    List.length xs = List.length vals.
Proof.
  induction 1 as [|x vals (q & -> & Hq) _ (xs & E1 & E2 & Hxs & Hlen)].
  - exists []. repeat split; constructor.
  - exists (q :: xs). simpl. rewrite E1, E2.
    repeat split; [constructor; assumption | simpl; congruence].
Qed.

Lemma Qlen_cons (x : Q) (xs : list Q) : Qlen (x :: xs) == 1 + Qlen xs.
Proof.
  unfold Qlen. cbn [List.length]. rewrite Nat2Z.inj_succ, <- Z.add_1_l.
  rewrite inject_Z_plus. reflexivity.
Qed.

Lemma Qlen_nonneg (xs : list Q) : 0 <= Qlen xs.
Proof.
  unfold Qlen. change 0 with (inject_Z 0). rewrite <- Zle_Qle. lia.
Qed.

Lemma Qlen_pos (x : Q) (xs : list Q) : 0 < Qlen (x :: xs).
Proof. rewrite Qlen_cons. pose proof (Qlen_nonneg xs). lra. Qed.

Lemma Qsum_constant (xs : list Q) :
  Forall (fun q => q == v) xs -> Qsum xs == Qlen xs * v.
Proof.
  induction 1 as [|x xs Hx _ IH].
  - unfold Qlen; simpl. ring.
  - rewrite Qlen_cons. simpl. rewrite IH, Hx. ring.
Qed.

Lemma Qsum_zero (l : list Q) : Forall (fun q => q == 0) l -> Qsum l == 0.
Proof.
  induction 1 as [|x l Hx _ IH]; simpl; [reflexivity|].
  rewrite Hx, IH. ring.
Qed.

Lemma mean_constant (xs : list Q) :
  xs <> [] -> Forall (fun q => q == v) xs -> Qsum xs / Qlen xs == v.
Proof.
  intros Hne H. destruct xs as [|x xs]; [congruence|].
  rewrite (Qsum_constant _ H). field.
  pose proof (Qlen_pos x xs). lra.
Qed.

Lemma var_constant (ddof : Z) (xs : list Q) :
  xs <> [] -> Forall (fun q => q == v) xs -> var ddof xs == 0.
Proof.
  intros Hne H. unfold var.
  assert (Hs : Qsum (map (fun x => (x - Qsum xs / Qlen xs) * (x - Qsum xs / Qlen xs)) xs) == 0).
  { apply Qsum_zero. apply Forall_map.
    eapply Forall_impl; [|exact H]. cbv beta. intros a Ha.
    rewrite (mean_constant _ Hne H), Ha. ring. }
  unfold Qdiv. rewrite Hs. ring.
Qed.

(** On constant data every z-score is NaN, and nothing exceeds the
    threshold. *)
Lemma zscore_values_constant (t : Q) (xs : list Q) :
  Forall (fun q => q == v) xs ->
  Forall (fun z => zabs_gt z t = false) (zscore_values xs).
Proof.
  intros H. destruct xs as [|x xs]; [constructor|].
  unfold zscore_values. apply Forall_map, Forall_forall. intros a _.
  unfold zabs_gt, z_isnan. cbn [z_var].
  assert (E : Qeq_bool (var 0 (x :: xs)) 0 = true).
  { apply Qeq_bool_iff. apply var_constant; [discriminate | exact H]. }
  rewrite E. reflexivity.
Qed.

Lemma insert_sorted_Forall (P : Q -> Prop) (x : Q) (l : list Q) :
  P x -> Forall P l -> Forall P (insert_sorted x l).
Proof.
  intros Hx. induction 1 as [|y l Hy Hl IH]; simpl.
  - constructor; [assumption | constructor].
  - destruct (Qle_bool x y); repeat (constructor; try assumption).
Qed.

Lemma sort_Forall (P : Q -> Prop) (xs : list Q) :
  Forall P xs -> Forall P (sort xs).
Proof.
  induction 1 as [|x xs Hx _ IH]; simpl; [constructor|].
  apply insert_sorted_Forall; assumption.
Qed.

Lemma insert_sorted_length (x : Q) (l : list Q) :
  List.length (insert_sorted x l) = S (List.length l).
Proof.
  induction l as [|y l IH]; simpl; [reflexivity|].
  destruct (Qle_bool x y); simpl; congruence.
Qed.

Lemma sort_length (xs : list Q) : List.length (sort xs) = List.length xs.
Proof.
  induction xs as [|x xs IH]; simpl; [reflexivity|].
  rewrite insert_sorted_length. congruence.
Qed.

(** The position [(n-1) q] of a quantile with [0 <= q <= 1] falls inside
    the data. *)
Lemma quantile_position (n : nat) (q : Q) :
  (0 < n)%nat -> q <= 1 ->
  (Z.to_nat (Qfloor (inject_Z (Z.of_nat n - 1) * q)) < n)%nat.
Proof.
  intros Hn Hq.
  assert (Hle : inject_Z (Z.of_nat n - 1) * q <= inject_Z (Z.of_nat n - 1)).
  { assert (0 <= inject_Z (Z.of_nat n - 1)).
    { change 0 with (inject_Z 0). rewrite <- Zle_Qle. lia. }
    nra. }
  apply Qfloor_resp_le in Hle. rewrite Qfloor_Z in Hle. lia.
Qed.

Lemma quantile_constant (xs : list Q) (q : Q) :
  xs <> [] -> q <= 1 -> Forall (fun a => a == v) xs ->
  exists y, quantile xs q = Finite y /\ y == v.
Proof.
  intros Hne Hq H. unfold quantile.
  pose proof (sort_Forall _ _ H) as Hs.
  pose proof (sort_length xs) as Hl.
  destruct (sort xs) as [|a s] eqn:E.
  - destruct xs; [congruence | discriminate].
  - rewrite <- E in *. clear E.
    assert (Hn : (0 < List.length (sort xs))%nat).
    { rewrite Hl. destruct xs; [congruence | simpl; lia]. }
    eexists. split; [reflexivity|].
    pose proof (quantile_position _ _ Hn Hq) as Hlo.
    rewrite Forall_nth in Hs.
    rewrite (Hs _ 0 Hlo).
    rewrite (Hs (Nat.min _ _) 0) by lia.
    ring.
Qed.

End ConstantColumn.

Section ConstantOutliers.

Variable v : Q.

Lemma dropna_series_constant (s : Series) :
  (forall i x, In (i, x) (s_items s) -> x = Null \/ Spec.constant_cell v x) ->
  Forall (Spec.constant_cell v) (map snd (s_items (dropna_series s))).
Proof.
  intros Hall. apply Forall_forall. intros x Hx.
  apply in_map_iff in Hx. destruct Hx as ([i x'] & <- & Hin).
  unfold dropna_series in Hin; simpl in Hin.
  apply filter_In in Hin. destruct Hin as [Hin Hnn]. simpl in *.
  destruct (Hall i x' Hin) as [-> | Hc]; [discriminate | exact Hc].
Qed.

Lemma no_outlier_selected (data : Series) (mask : list bool) :
  Forall (fun b => b = false) mask ->
  DataCleaningService.count_true mask = 0%nat /\
  DataCleaningService.select data mask = [].
Proof.
  intros H. split.
  - unfold DataCleaningService.count_true.
    induction H as [|b mask -> _ IH]; simpl; [reflexivity | exact IH].
  - unfold DataCleaningService.select.
    generalize (s_items data). induction H as [|b mask -> _ IH]; intros items.
    + destruct items; reflexivity.
    + destruct items as [|p items]; [reflexivity|]. simpl. apply IH.
Qed.

Lemma zscore_constant (t : Q) (data : Series) :
  Forall (Spec.constant_cell v) (map snd (s_items data)) ->
  exists zs, zscore data = Ok zs /\ Forall (fun z => zabs_gt z t = false) zs.
Proof.
  intros H. unfold zscore.
  destruct (s_items data) as [|p items] eqn:E.
  - exists []. split; [reflexivity | constructor].
  - destruct (traverse_constant v _ H) as (xs & _ & E2 & Hxs & _).
    rewrite E2. exists (zscore_values xs). split; [reflexivity|].
    apply (zscore_values_constant v); exact Hxs.
Qed.

Lemma iqr_mask_constant (items : list (Z * value)) (lo hi : Q) :
  lo == v -> hi == v ->
  Forall (Spec.constant_cell v) (map snd items) ->
  Forall (fun b => b = false)
    (map (fun p => DataCleaningService.value_lt (snd p) (Finite lo)
                   || DataCleaningService.value_gt (snd p) (Finite hi)) items).
Proof.
  intros Hlo Hhi H. apply Forall_map. rewrite Forall_map in H.
  eapply Forall_impl; [|exact H]. cbv beta. intros p (q & -> & Hq).
  unfold DataCleaningService.value_lt, DataCleaningService.value_gt.
  simpl. unfold Qlt_bool.
  assert (E1 : Qle_bool lo q = true) by (apply Qle_bool_iff; lra).
  assert (E2 : Qle_bool q hi = true) by (apply Qle_bool_iff; lra).
  rewrite E1, E2. reflexivity.
Qed.

Lemma series_quantile_constant (data : Series) (q : Q) :
  q <= 1 ->
  Forall (Spec.constant_cell v) (map snd (s_items data)) ->
  (s_items data = [] /\ series_quantile data q = Ok nan) \/
  (exists y, series_quantile data q = Ok (Finite y) /\ y == v).
Proof.
  intros Hq H. unfold series_quantile.
  destruct (traverse_constant v _ H) as (xs & E1 & _ & Hxs & Hlen).
  rewrite E1. destruct xs as [|x xs].
  - left. split; [|reflexivity].
    rewrite length_map in Hlen. destruct (s_items data); [reflexivity | discriminate].
  - right. destruct (quantile_constant v (x :: xs) q) as (y & Ey & Hy);
      [discriminate | exact Hq | exact Hxs |].
    exists y. rewrite Ey. split; [reflexivity | exact Hy].
Qed.

End ConstantOutliers.

(** C7.  For a numeric column whose non-missing values are all equal to some
    [v] (a single-value column in particular), [detect_outliers] succeeds
    with either method and reports no outlier: the count is 0 and the lists
    of outlier indices and values are empty. *)
Theorem detect_outliers_constant_column :
  forall df column s v method,
    getitem df column = Ok s ->
    (forall i x, In (i, x) (s_items s) -> x = Null \/ Spec.constant_cell v x) ->
    method = "zscore"%string \/ method = "iqr"%string ->
    exists info,
      DataCleaningService.detect_outliers df column method = Ok info /\
      DataCleaningService.total_outliers info = 0%nat /\
      DataCleaningService.outlier_indices info = [] /\
      DataCleaningService.outlier_values info = [].
Proof.
  intros df column s v method Hget Hall Hm.
  pose proof (dropna_series_constant v s Hall) as Hc.
  unfold DataCleaningService.detect_outliers. rewrite Hget. cbn [bind].
  destruct Hm as [-> | ->]; cbn [String.eqb Ascii.eqb Bool.eqb].
  - destruct (zscore_constant v (inject_Z 3) _ Hc) as (zs & -> & Hz). cbn [bind].
    assert (Hmask : Forall (fun b => b = false)
                      (map (fun z => zabs_gt z (inject_Z 3)) zs)).
    { apply Forall_map. exact Hz. }
    destruct (no_outlier_selected (dropna_series s) _ Hmask) as [Hcount Hsel].
    eexists. split; [reflexivity|].
    cbn [DataCleaningService.total_outliers DataCleaningService.outlier_indices
         DataCleaningService.outlier_values].
    rewrite Hcount, Hsel. repeat split.
  - assert (H14 : (1 # 4) <= 1) by (unfold Qle; simpl; lia).
    assert (H34 : (3 # 4) <= 1) by (unfold Qle; simpl; lia).
    assert (Hmask : exists lower upper,
               (q1 <- series_quantile (dropna_series s) (1 # 4) ;;
                q3 <- series_quantile (dropna_series s) (3 # 4) ;;
                Ok (DataCleaningService.iqr_bounds q1 q3)) = Ok (lower, upper) /\
               Forall (fun b => b = false)
                 (map (fun p => DataCleaningService.value_lt (snd p) lower
                                || DataCleaningService.value_gt (snd p) upper)
                      (s_items (dropna_series s)))).
    { destruct (series_quantile_constant v _ (1 # 4) H14 Hc)
        as [[Hnil ->] | (y1 & -> & Hy1)].
      - destruct (series_quantile_constant v _ (3 # 4) H34 Hc)
          as [[_ ->] | (y3 & -> & Hy3)];
          (do 2 eexists; split; [reflexivity | rewrite Hnil; constructor]).
      - destruct (series_quantile_constant v _ (3 # 4) H34 Hc)
          as [[Hnil ->] | (y3 & -> & Hy3)].
        + do 2 eexists; split; [reflexivity | rewrite Hnil; constructor].
        + do 2 eexists; split; [reflexivity|].
          apply (iqr_mask_constant v); [rewrite Hy1, Hy3; ring .. | exact Hc]. }
    destruct Hmask as (lower & upper & Hb & Hmask).
    destruct (series_quantile (dropna_series s) (1 # 4)) as [q1|]; [|discriminate].
    destruct (series_quantile (dropna_series s) (3 # 4)) as [q3|]; [|discriminate].
    cbn [bind] in Hb |- *.
    assert (Hb' : DataCleaningService.iqr_bounds q1 q3 = (lower, upper)) by congruence.
    rewrite Hb'.
    destruct (no_outlier_selected (dropna_series s) _ Hmask) as [Hcount Hsel].
    eexists. split; [reflexivity|].
    cbn [DataCleaningService.total_outliers DataCleaningService.outlier_indices
         DataCleaningService.outlier_values].
    rewrite Hcount, Hsel. repeat split.
Qed.

Lemma detect_outliers_constant_column_witness :
  exists info,
    DataCleaningService.detect_outliers Examples.constant_frame "x" "iqr" = Ok info /\
    DataCleaningService.total_outliers info = 0%nat /\
    DataCleaningService.outlier_indices info = [] /\
    DataCleaningService.outlier_values info = [].
Proof.
  apply (detect_outliers_constant_column Examples.constant_frame "x"
           (mkSeries float64 [(0%Z, Num 5); (1%Z, Num 5); (2%Z, Num 5)]) 5 "iqr").
  - reflexivity.
  - simpl. intros i x [H | [H | [H | []]]]; injection H as _ <-;
      right; exists 5; split; reflexivity.
  - right. reflexivity.
Defined.

(** ** The z-score rule *)


Section PopulationZScore.

Lemma traverse_length {A B : Type} (f : A -> option B) (l : list A) :
  forall r, traverse f l = Some r -> List.length r = List.length l.
Proof.
  induction l as [|a l IH]; intros r; simpl.
  - intros H; injection H as <-. reflexivity.
  - destruct (f a); [|discriminate].
    destruct (traverse f l) as [bs|]; [|discriminate].
    intros H; injection H as <-. simpl. rewrite (IH bs eq_refl). reflexivity.
Qed.








End PopulationZScore.


(** ** Routing of columns in the statistics service *)

Section Routing.

Lemma get_loc_has_column (c : string) (cols : list (string * dtype)) :
  forall p, get_loc c cols = Some p ->
            existsb (fun q => String.eqb (fst q) c) cols = true.
Proof.
  induction cols as [|[n t] cols IH]; intros p; simpl; [discriminate|].
  destruct (String.eqb n c); [reflexivity|]. simpl.
  destruct (get_loc c cols) as [[j t']|]; [|discriminate].
  intros _. eapply IH. reflexivity.
Qed.

Lemma getitem_has_column (df : DataFrame) (c : string) (s : Series) :
  getitem df c = Ok s -> has_column df c = true.
Proof.
  unfold getitem, has_column.
  destruct (get_loc c (columns df)) as [[j t]|] eqn:E; [|discriminate].
  intros _. eapply get_loc_has_column, E.
Qed.

Lemma truthy_nonempty (c : string) : c <> ""%string -> truthy (Some c) = true.
Proof. intros H. simpl. apply negb_true_iff, String.eqb_neq, H. Qed.

Lemma calculate_statistics_single (df : DataFrame) (c : string) (s : Series) :
  c <> ""%string -> getitem df c = Ok s ->
  StatisticsService.calculate_statistics df (Some c)
  = (st <- StatisticsService.column_statistics (dropna_series s) ;; Ok [(c, st)]).
Proof.
  intros Hc Hget. unfold StatisticsService.calculate_statistics.
  rewrite (truthy_nonempty c Hc), (getitem_has_column df c s Hget), Hget.
  reflexivity.
Qed.

Lemma dropna_series_all_null (s : Series) :
  (forall i x, In (i, x) (s_items s) -> x = Null) ->
  s_items (dropna_series s) = [].
Proof.
  unfold dropna_series; simpl. induction (s_items s) as [|[i x] items IH]; intros H.
  - reflexivity.
  - simpl. rewrite (H i x (or_introl eq_refl)). simpl.
    apply IH. intros j y Hin. apply (H j y). right. exact Hin.
Qed.

Lemma dropna_series_idempotent (s : Series) :
  dropna_series (dropna_series s) = dropna_series s.
Proof.
  unfold dropna_series; simpl. f_equal.
  induction (s_items s) as [|p items IH]; [reflexivity|]. simpl.
  destruct (negb (isnull (snd p))) eqn:E; simpl; [rewrite E|]; congruence.
Qed.

End Routing.

(** C5.  A boolean column does not get the categorical summary.  The
    branch is on [is_numeric_dtype], which holds of the boolean dtype: the
    column is sent to [_numeric_statistics], which raises [TypeError] on
    its boolean values, when the column is named and when all columns are
    summarised alike.  [get_column_info] has a test [is_bool_dtype] for
    the type "boolean", placed after the test [is_numeric_dtype], so that
    it is never reached: a boolean column is typed "numeric".  A text
    column does get the categorical summary, in both modes. *)
Theorem calculate_statistics_boolean_column :
  Spec.semantic_type bool_ = FileHandler.boolean /\
  is_bool_dtype bool_ = true /\
  is_numeric_dtype bool_ = true /\
  FileHandler.column_type bool_ = FileHandler.numeric /\
  getitem Examples.boolean_column "x" = Ok Examples.boolean_series /\
  StatisticsService.column_statistics (dropna_series Examples.boolean_series)
    = StatisticsService._numeric_statistics (dropna_series Examples.boolean_series) /\
  StatisticsService.calculate_statistics Examples.boolean_column (Some "x"%string)
    = Raise TypeError /\
  StatisticsService.calculate_statistics Examples.boolean_column None
    = Raise TypeError /\
  (forall cat,
      StatisticsService.calculate_statistics Examples.boolean_column (Some "x"%string)
      <> Ok [("x"%string, StatisticsService.Categorical cat)]) /\
  (forall cat,
      StatisticsService.calculate_statistics Examples.boolean_column None
      <> Ok [("x"%string, StatisticsService.Categorical cat)]) /\
  (exists cat,
      StatisticsService.calculate_statistics Examples.text_column (Some "x"%string)
      = Ok [("x"%string, StatisticsService.Categorical cat)] /\
      StatisticsService.calculate_statistics Examples.text_column None
      = Ok [("x"%string, StatisticsService.Categorical cat)] /\
      StatisticsService.c_count cat = 3%nat /\
      StatisticsService.most_common cat = Some (Str "b")).
Proof.
  repeat split; try (intros cat H; vm_compute in H; discriminate).
  eexists. repeat split.
Qed.

(** C9.  For a column of numeric dtype without any non-missing value,
    [calculate_statistics] answers with the "No numeric data available"
    marker: it does not fail and computes nothing on the empty data. *)
Theorem calculate_statistics_no_numeric_data :
  forall df c s,
    c <> ""%string ->
    getitem df c = Ok s ->
    is_numeric_dtype (s_dtype s) = true ->
    (forall i x, In (i, x) (s_items s) -> x = Null) ->
    StatisticsService._numeric_statistics s = Ok StatisticsService.NoNumericData /\
    StatisticsService.calculate_statistics df (Some c)
    = Ok [(c, StatisticsService.NoNumericData)].
Proof.
  intros df c s Hc Hget Hnum Hnull.
  pose proof (dropna_series_all_null s Hnull) as Hempty.
  split.
  - unfold StatisticsService._numeric_statistics. rewrite Hempty. reflexivity.
  - rewrite (calculate_statistics_single df c s Hc Hget).
    unfold StatisticsService.column_statistics.
    change (s_dtype (dropna_series s)) with (s_dtype s). rewrite Hnum.
    unfold StatisticsService._numeric_statistics.
    rewrite dropna_series_idempotent, Hempty. reflexivity.
Qed.

Lemma calculate_statistics_no_numeric_data_witness :
  StatisticsService._numeric_statistics (mkSeries float64 [(0%Z, Null); (1%Z, Null)])
  = Ok StatisticsService.NoNumericData /\
  StatisticsService.calculate_statistics Examples.all_null_column (Some "x"%string)
  = Ok [("x"%string, StatisticsService.NoNumericData)].
Proof.
  apply (calculate_statistics_no_numeric_data Examples.all_null_column "x"%string
           (mkSeries float64 [(0%Z, Null); (1%Z, Null)])).
  - discriminate.
  - reflexivity.
  - reflexivity.
  - simpl. intros i x [H | [H | []]]; congruence.
Defined.

(** ** Rows whose target cell is missing *)

Section NullTargetRows.

Lemma setitem_label_other (mask : list (Z * bool)) (l' : Z) (v : bool) l b :
  l <> l' -> In (l, b) (setitem_label mask l' v) -> In (l, b) mask.
Proof.
  intros Hne. unfold setitem_label. rewrite in_map_iff.
  intros ([l0 b0] & E & Hin). simpl in E.
  destruct (l0 =? l')%Z eqn:El.
  - apply Z.eqb_eq in El. injection E as E1 E2. congruence.
  - congruence.
Qed.

Lemma setitem_label_fst (mask : list (Z * bool)) (l : Z) (v : bool) :
  map fst (setitem_label mask l v) = map fst mask.
Proof.
  unfold setitem_label. rewrite map_map. apply map_ext.
  intros [l0 b0]. simpl. destruct (l0 =? l)%Z; reflexivity.
Qed.

Lemma setitem_other (labels : list Z) :
  forall vals mask l b,
    ~ In l labels -> In (l, b) (setitem mask labels vals) -> In (l, b) mask.
Proof.
  induction labels as [|l' labels IH]; intros vals mask l b Hno; simpl; [tauto|].
  destruct vals as [|v vals]; [tauto|].
  intros H. apply IH in H; [|simpl in Hno; tauto].
  eapply setitem_label_other; [|exact H]. simpl in Hno. intros ->. tauto.
Qed.

Lemma setitem_fst (labels : list Z) :
  forall vals mask, map fst (setitem mask labels vals) = map fst mask.
Proof.
  induction labels as [|l labels IH]; intros vals mask; simpl; [reflexivity|].
  destruct vals as [|v vals]; [reflexivity|].
  rewrite IH. apply setitem_label_fst.
Qed.

(** A row whose label carries [True] at every place of the mask is
    selected. *)
Lemma combine_mask_In (rs : list (Z * list value)) :
  forall (mask : list (Z * bool)) r,
    map fst mask = map fst rs ->
    In r rs ->
    (forall b, In (fst r, b) mask -> b = true) ->
    exists m, snd m = true /\ In (m, r) (combine mask rs).
Proof.
  induction rs as [|a rs IH]; intros mask r Hfst Hin Htrue; [destruct Hin|].
  destruct mask as [|[l b] mask]; [discriminate|].
  simpl in Hfst. injection Hfst as Hl Hfst. simpl in Hl.
  destruct Hin as [-> | Hin].
  - exists (l, b). split; [|left; reflexivity].
    simpl. apply Htrue. left. congruence.
  - destruct (IH mask r Hfst Hin) as (m & Hm & Hc).
    + intros b' Hb'. apply Htrue. right. exact Hb'.
    + exists m. split; [exact Hm | right; exact Hc].
Qed.

Lemma unique_label (rs : list (Z * list value)) r r' :
  NoDup (map fst rs) -> In r rs -> In r' rs -> fst r = fst r' -> r = r'.
Proof.
  induction rs as [|a rs IH]; intros Hnd Hr Hr' E; [destruct Hr|].
  simpl in Hnd. inversion Hnd as [|? ? Hnotin Hnd']; subst.
  destruct Hr as [-> | Hr], Hr' as [-> | Hr'].
  - reflexivity.
  - exfalso. apply Hnotin. rewrite E. apply in_map. exact Hr'.
  - exfalso. apply Hnotin. rewrite <- E. apply in_map. exact Hr.
  - apply IH; assumption.
Qed.

(** With a unique index, stage 3 keeps every row whose target cell is
    missing, whatever the method. *)
Lemma remove_outlier_rows_keeps_null_rows df c m cleaned j t r :
  NoDup (index df) ->
  get_loc c (columns df) = Some (j, t) ->
  DataCleaningService.remove_outlier_rows df c m = Ok cleaned ->
  In r (rows df) ->
  nth j (snd r) Null = Null ->
  In r (rows cleaned).
Proof.
  intros Hnd Hloc. unfold DataCleaningService.remove_outlier_rows.
  destruct (negb (has_column df c)); [discriminate|].
  unfold getitem. rewrite Hloc. cbn [bind].
  set (data := dropna_series _).
  destruct (DataCleaningService.keep_mask data m) as [k|e]; cbn [bind]; [|discriminate].
  intros H; injection H as <-. intros Hr Hnull.
  unfold boolean_index; simpl.
  set (mask := setitem (full true (index df)) (map fst (s_items data)) k).
  assert (Hlabel : ~ In (fst r) (map fst (s_items data))).
  { intros Hin. apply in_map_iff in Hin. destruct Hin as ([l x] & El & Hin).
    simpl in El. subst l. unfold data, dropna_series in Hin; simpl in Hin.
    apply filter_In in Hin. destruct Hin as [Hin Hnn]. simpl in Hnn.
    apply in_map_iff in Hin. destruct Hin as (r' & E' & Hr').
    injection E' as E1 E2.
    assert (r' = r) by (apply (unique_label (rows df)); assumption).
    subst r'. rewrite Hnull in E2. subst x. discriminate. }
  destruct (combine_mask_In (rows df) mask r) as (mk & Hmk & Hc).
  - unfold mask. rewrite setitem_fst. unfold full, index.
    rewrite map_map. cbn [fst]. apply map_id.
  - exact Hr.
  - intros b Hb. apply (setitem_other _ _ _ _ _ Hlabel) in Hb.
    unfold full in Hb. apply in_map_iff in Hb. destruct Hb as (i & E & _).
    congruence.
  - apply in_map_iff. exists (mk, r). split; [reflexivity|].
    apply filter_In. split; [exact Hc | exact Hmk].
Qed.

End NullTargetRows.

(** * Further properties of the services *)

(** ** [detect_missing_values] *)

Section MissingValues.

Lemma missing_count_le (j : nat) (rs : list (Z * list value)) :
  (DataCleaningService.missing_count j rs <= List.length rs)%nat.
Proof. apply filter_length_le. Qed.

Lemma missing_columns_In (cols : list (string * dtype)) (rs : list (Z * list value)) :
  forall j c m,
    In (c, m) (DataCleaningService.missing_columns j cols rs) ->
    exists k,
      (j <= k < j + List.length cols)%nat /\
      (0 < DataCleaningService.missing_count k rs)%nat /\
      DataCleaningService.cm_count m = DataCleaningService.missing_count k rs /\
      DataCleaningService.cm_percentage m = DataCleaningService.missing_percent k rs.
Proof.
  induction cols as [|[col t] cols IH]; intros j c m; simpl; [tauto|].
  destruct (0 <? DataCleaningService.missing_count j rs)%nat eqn:E.
  - intros [H | H].
    + injection H as _ <-. exists j. apply Nat.ltb_lt in E. simpl.
      repeat split; try lia.
    + destruct (IH (S j) c m H) as (k & Hk & Hrest). exists k. split; [lia | exact Hrest].
  - intros H. destruct (IH (S j) c m H) as (k & Hk & Hrest).
    exists k. split; [lia | exact Hrest].
Qed.

Lemma missing_percent_value (j : nat) (rs : list (Z * list value)) :
  (0 < DataCleaningService.missing_count j rs)%nat ->
  exists p,
    DataCleaningService.missing_percent j rs = Finite p /\
    p == inject_Z (Z.of_nat (DataCleaningService.missing_count j rs))
         / inject_Z (Z.of_nat (List.length rs)) * 100 /\
    0 < p /\ p <= 100.
Proof.
  intros Hpos. pose proof (missing_count_le j rs) as Hle.
  unfold DataCleaningService.missing_percent, true_divide.
  set (n := DataCleaningService.missing_count j rs) in *.
  destruct (Z.of_nat (List.length rs) =? 0)%Z eqn:E; [apply Z.eqb_eq in E; lia|].
  eexists. split; [reflexivity|]. split; [reflexivity|].
  assert (Hn : 0 < inject_Z (Z.of_nat n)).
  { change 0 with (inject_Z 0). rewrite <- Zlt_Qlt. lia. }
  assert (Hl : inject_Z (Z.of_nat n) <= inject_Z (Z.of_nat (List.length rs))).
  { rewrite <- Zle_Qle. lia. }
  set (a := inject_Z (Z.of_nat n)) in *.
  set (b := inject_Z (Z.of_nat (List.length rs))) in *.
  assert (Hb : 0 < b) by lra.
  assert (Hq : 0 < a / b /\ a / b <= 1).
  { split.
    - apply Qlt_shift_div_l; lra.
    - apply Qle_shift_div_r; lra. }
  lra.
Qed.

Lemma missing_total_sum (cols : list (string * dtype)) (rs : list (Z * list value)) :
  forall j,
    DataCleaningService.missing_total j cols rs
    = list_sum (map (fun e => DataCleaningService.cm_count (snd e))
                    (DataCleaningService.missing_columns j cols rs)).
Proof.
  induction cols as [|[col t] cols IH]; intros j; simpl; [reflexivity|].
  rewrite (IH (S j)).
  destruct (0 <? DataCleaningService.missing_count j rs)%nat eqn:E; simpl.
  - reflexivity.
  - apply Nat.ltb_ge in E. lia.
Qed.

Lemma missing_total_le (cols : list (string * dtype)) (rs : list (Z * list value)) :
  forall j,
    (DataCleaningService.missing_total j cols rs
     <= List.length rs * List.length cols)%nat.
Proof.
  induction cols as [|c cols IH]; intros j; simpl; [lia|].
  pose proof (missing_count_le j rs). specialize (IH (S j)). nia.
Qed.

Lemma missing_total_zero (cols : list (string * dtype)) (rs : list (Z * list value)) :
  forall j,
    DataCleaningService.missing_total j cols rs = 0%nat <->
    (forall k, (j <= k < j + List.length cols)%nat ->
               DataCleaningService.missing_count k rs = 0%nat).
Proof.
  induction cols as [|c cols IH]; intros j; simpl.
  - split; [intros _ k Hk; lia | reflexivity].
  - split.
    + intros H k Hk. destruct (Nat.eq_dec k j) as [-> | Hne]; [lia|].
      apply (proj1 (IH (S j))); lia.
    + intros H. rewrite (H j) by lia.
      apply (proj2 (IH (S j))). intros k Hk. apply H. lia.
Qed.

Lemma missing_count_zero (j : nat) (rs : list (Z * list value)) :
  DataCleaningService.missing_count j rs = 0%nat <->
  (forall r, In r rs -> nth j (snd r) Null <> Null).
Proof.
  unfold DataCleaningService.missing_count. split.
  - intros H r Hr Hnull.
    assert (Hin : In r (filter (fun r => isnull (nth j (snd r) Null)) rs)).
    { apply filter_In. split; [exact Hr|]. rewrite Hnull. reflexivity. }
    destruct (filter _ rs); [destruct Hin | discriminate].
  - intros H. induction rs as [|r rs IH]; [reflexivity|]. simpl.
    destruct (nth j (snd r) Null) eqn:E;
      try (simpl; apply IH; intros r' Hr'; apply H; right; exact Hr').
    exfalso. apply (H r); [left; reflexivity | exact E].
Qed.

End MissingValues.

(** X1.  Every column that [detect_missing_values] lists has a count
    between 1 and the number of rows, and a finite percentage
    [count / rows * 100] in (0, 100]: the division by [len(df)] never
    meets zero on a listed column. *)
Theorem detect_missing_values_entries :
  forall df c m,
    In (c, m) (DataCleaningService.columns_with_missing
                 (DataCleaningService.detect_missing_values df)) ->
    (0 < DataCleaningService.cm_count m <= len df)%nat /\
    exists p,
      DataCleaningService.cm_percentage m = Finite p /\
      p == inject_Z (Z.of_nat (DataCleaningService.cm_count m))
           / inject_Z (Z.of_nat (len df)) * 100 /\
      0 < p /\ p <= 100.
Proof.
  intros df c m H. simpl in H.
  destruct (missing_columns_In _ _ _ _ _ H) as (k & _ & Hpos & Ec & Ep).
  rewrite Ec, Ep. split.
  - split; [exact Hpos | apply missing_count_le].
  - apply missing_percent_value. exact Hpos.
Qed.

Lemma detect_missing_values_entries_witness :
  (0 < 1 <= len Examples.frame_with_null)%nat /\
  exists p,
    Finite (inject_Z 1 / inject_Z 3 * 100) = Finite p /\
    p == inject_Z (Z.of_nat 1) / inject_Z (Z.of_nat (len Examples.frame_with_null)) * 100 /\
    0 < p /\ p <= 100.
Proof.
  apply (detect_missing_values_entries Examples.frame_with_null "x"%string
           (DataCleaningService.mkColumnMissing 1 (Finite (inject_Z 1 / inject_Z 3 * 100)))).
  simpl. left. reflexivity.
Defined.

(** X2.  The total of [detect_missing_values] is the sum of the counts of
    the listed columns, it never exceeds the number of cells, and it is 0
    exactly when no column is listed. *)
Theorem detect_missing_values_totals :
  forall df,
    let info := DataCleaningService.detect_missing_values df in
    DataCleaningService.total_missing info
    = list_sum (map (fun e => DataCleaningService.cm_count (snd e))
                    (DataCleaningService.columns_with_missing info)) /\
    (DataCleaningService.total_missing info
     <= DataCleaningService.total_cells info)%nat /\
    (DataCleaningService.total_missing info = 0%nat <->
     DataCleaningService.columns_with_missing info = []).
Proof.
  intros df info. subst info. simpl.
  pose proof (missing_total_sum (columns df) (rows df) 0%nat) as Hsum.
  split; [exact Hsum|]. split; [apply missing_total_le|].
  rewrite Hsum. split.
  - intros H0.
    destruct (DataCleaningService.missing_columns 0 (columns df) (rows df))
      as [|[c m] l] eqn:E; [reflexivity|].
    assert (Hin : In (c, m) (DataCleaningService.missing_columns 0 (columns df) (rows df)))
      by (rewrite E; left; reflexivity).
    destruct (missing_columns_In _ _ _ _ _ Hin) as (k & _ & Hpos & Ec & _).
    simpl in H0. lia.
  - intros ->. reflexivity.
Qed.

Lemma detect_missing_values_totals_witness :
  let info := DataCleaningService.detect_missing_values Examples.frame_with_null in
  DataCleaningService.total_missing info
  = list_sum (map (fun e => DataCleaningService.cm_count (snd e))
                  (DataCleaningService.columns_with_missing info)) /\
  (DataCleaningService.total_missing info
   <= DataCleaningService.total_cells info)%nat /\
  (DataCleaningService.total_missing info = 0%nat <->
   DataCleaningService.columns_with_missing info = []).
Proof. exact (detect_missing_values_totals Examples.frame_with_null). Defined.

Section MissingAndNullFree.

Lemma null_free_counts (df : DataFrame) :
  Spec.rectangular df ->
  (Spec.null_free df <->
   forall k, (k < List.length (columns df))%nat ->
             DataCleaningService.missing_count k (rows df) = 0%nat).
Proof.
  intros Hrect. split.
  - intros Hnf k Hk. apply missing_count_zero. intros r Hr.
    apply (Hnf r _ Hr). apply nth_In. rewrite (Hrect r Hr). exact Hk.
  - intros H r v Hr Hv Hnull. subst v.
    destruct (In_nth _ _ Null Hv) as (k & Hk & Ek).
    rewrite (Hrect r Hr) in Hk.
    apply (proj1 (missing_count_zero k (rows df)) (H k Hk) r Hr Ek).
Qed.

Lemma missing_total_null_free (df : DataFrame) :
  Spec.rectangular df ->
  (DataCleaningService.missing_total 0 (columns df) (rows df) = 0%nat <->
   Spec.null_free df).
Proof.
  intros Hrect. rewrite missing_total_zero, (null_free_counts df Hrect).
  split; intros H k Hk; apply H; lia.
Qed.

Lemma remove_outlier_rows_columns (df cleaned : DataFrame) (c m : string) :
  DataCleaningService.remove_outlier_rows df c m = Ok cleaned ->
  columns cleaned = columns df.
Proof.
  unfold DataCleaningService.remove_outlier_rows.
  destruct (negb (has_column df c)); [discriminate|].
  destruct (getitem df c) as [s|e]; simpl; [|discriminate].
  destruct (DataCleaningService.keep_mask (dropna_series s) m) as [k|e];
    simpl; [|discriminate].
  intros H; injection H as <-. reflexivity.
Qed.

(** [clean_dataset] never changes the columns. *)
Lemma clean_dataset_columns df hm rd ro oc om cleaned :
  DataCleaningService.clean_dataset df hm rd ro oc om = Ok cleaned ->
  columns cleaned = columns df.
Proof.
  unfold DataCleaningService.clean_dataset.
  pose proof (stage2_columns hm rd df) as H2.
  destruct (ro && truthy oc).
  - destruct oc as [c|].
    + intros H. apply remove_outlier_rows_columns in H. congruence.
    + intros H; injection H as <-. exact H2.
  - intros H; injection H as <-. exact H2.
Qed.

Lemma missing_columns_empty (cols : list (string * dtype)) (rs : list (Z * list value)) :
  forall j,
    DataCleaningService.missing_total j cols rs = 0%nat ->
    DataCleaningService.missing_columns j cols rs = [].
Proof.
  induction cols as [|[col t] cols IH]; intros j; simpl; [reflexivity|].
  intros H.
  assert (E : (0 <? DataCleaningService.missing_count j rs)%nat = false)
    by (apply Nat.ltb_ge; lia).
  rewrite E. apply IH. lia.
Qed.

End MissingAndNullFree.

(** X3.  On a frame with one cell per column in every row,
    [detect_missing_values] reports a total of 0 exactly when no cell of
    the frame is missing. *)
Theorem detect_missing_values_null_free :
  forall df,
    Spec.rectangular df ->
    (DataCleaningService.total_missing (DataCleaningService.detect_missing_values df)
     = 0%nat <-> Spec.null_free df).
Proof. intros df Hrect. apply missing_total_null_free. exact Hrect. Qed.

Lemma detect_missing_values_null_free_witness :
  DataCleaningService.total_missing
    (DataCleaningService.detect_missing_values Examples.constant_frame) = 0%nat
  <-> Spec.null_free Examples.constant_frame.
Proof.
  apply (detect_missing_values_null_free Examples.constant_frame).
  intros r Hr. simpl in Hr.
  destruct Hr as [<- | [<- | [<- | []]]]; reflexivity.
Defined.

(** X4.  After [clean_dataset] with the "drop" policy (whatever the other
    options), [detect_missing_values] finds nothing: the total is 0 and no
    column is listed. *)
Theorem detect_missing_values_after_drop :
  forall df rd ro oc om cleaned,
    Spec.rectangular df ->
    DataCleaningService.clean_dataset df "drop" rd ro oc om = Ok cleaned ->
    DataCleaningService.total_missing
      (DataCleaningService.detect_missing_values cleaned) = 0%nat /\
    DataCleaningService.columns_with_missing
      (DataCleaningService.detect_missing_values cleaned) = [].
Proof.
  intros df rd ro oc om cleaned Hrect H.
  assert (Hin : forall r, In r (rows cleaned) -> In r (rows (dropna df))).
  { intros r Hr. exact (later_stages_In _ _ _ _ _ _ _ _ H Hr). }
  assert (Hrect' : Spec.rectangular cleaned).
  { intros r Hr. rewrite (clean_dataset_columns _ _ _ _ _ _ _ H).
    apply Hrect. specialize (Hin r Hr). unfold dropna in Hin; simpl in Hin.
    apply filter_In in Hin. tauto. }
  assert (Hnf : Spec.null_free cleaned).
  { intros r v Hr Hv. eapply dropna_null_free; [apply Hin; exact Hr | exact Hv]. }
  assert (H0 : DataCleaningService.total_missing
                 (DataCleaningService.detect_missing_values cleaned) = 0%nat).
  { apply missing_total_null_free; assumption. }
  split; [exact H0|].
  apply missing_columns_empty. exact H0.
Qed.

Lemma detect_missing_values_after_drop_witness :
  exists cleaned,
    DataCleaningService.clean_dataset Examples.frame_with_null
      "drop" true false None "zscore" = Ok cleaned /\
    DataCleaningService.total_missing
      (DataCleaningService.detect_missing_values cleaned) = 0%nat /\
    DataCleaningService.columns_with_missing
      (DataCleaningService.detect_missing_values cleaned) = [].
Proof.
  eexists. split; [vm_compute; reflexivity|].
  apply (detect_missing_values_after_drop Examples.frame_with_null
           true false None "zscore").
  - intros r Hr. simpl in Hr.
    destruct Hr as [<- | [<- | [<- | []]]]; reflexivity.
  - vm_compute. reflexivity.
Defined.

(** ** [detect_duplicates] and [drop_duplicates] *)

Section Duplicates.

Lemma value_eqb_refl (a : value) : value_eqb a a = true.
Proof.
  destruct a; simpl; try reflexivity.
  - apply Qeq_bool_iff. reflexivity.
  - apply Bool.eqb_reflx.
  - apply Z.eqb_refl.
  - apply String.eqb_refl.
Qed.

Lemma value_eqb_sym (a b : value) : value_eqb a b = value_eqb b a.
Proof.
  destruct a, b; simpl; try reflexivity.
  - apply eq_true_iff_eq. rewrite !Qeq_bool_iff. split; intros H; symmetry; exact H.
  - destruct b0, b; reflexivity.
  - apply Z.eqb_sym.
  - apply String.eqb_sym.
Qed.

Lemma row_eqb_refl (r : list value) : row_eqb r r = true.
Proof. induction r as [|a r IH]; simpl; [reflexivity|]. rewrite value_eqb_refl. exact IH. Qed.

Lemma row_eqb_sym (r1 : list value) : forall r2, row_eqb r1 r2 = row_eqb r2 r1.
Proof.
  induction r1 as [|a r1 IH]; intros [|b r2]; simpl; try reflexivity.
  rewrite value_eqb_sym, IH. reflexivity.
Qed.

(** The rows [duplicated] marks are the rows [drop_duplicates] drops. *)
Lemma duplicated_first_count (rs : list (Z * list value)) :
  forall seen,
    (DataCleaningService.count_true (DataCleaningService.duplicated_first seen rs)
     + List.length (drop_duplicates_rows seen rs) = List.length rs)%nat.
Proof.
  unfold DataCleaningService.count_true.
  induction rs as [|r rs IH]; intros seen; simpl; [reflexivity|].
  destruct (existsb (row_eqb (snd r)) seen); simpl.
  - rewrite <- (IH seen). reflexivity.
  - rewrite <- (IH (snd r :: seen)). lia.
Qed.

Lemma drop_duplicates_rows_idempotent (rs : list (Z * list value)) :
  forall seen seen',
    (forall x, existsb (row_eqb x) seen' = true -> existsb (row_eqb x) seen = true) ->
    drop_duplicates_rows seen' (drop_duplicates_rows seen rs)
    = drop_duplicates_rows seen rs.
Proof.
  induction rs as [|r rs IH]; intros seen seen' Hsub; simpl; [reflexivity|].
  destruct (existsb (row_eqb (snd r)) seen) eqn:E.
  - apply IH. exact Hsub.
  - simpl. destruct (existsb (row_eqb (snd r)) seen') eqn:E'.
    + apply Hsub in E'. congruence.
    + f_equal. apply IH. intros x. simpl.
      intros H. apply orb_true_iff in H. apply orb_true_iff.
      destruct H as [H | H]; [left; exact H | right; apply Hsub; exact H].
Qed.

Lemma drop_duplicates_idempotent (df : DataFrame) :
  drop_duplicates (drop_duplicates df) = drop_duplicates df.
Proof.
  unfold drop_duplicates. simpl. f_equal.
  apply drop_duplicates_rows_idempotent. tauto.
Qed.

(** Some flag of [duplicated_first] is set exactly when a row is in
    [seen] or repeats an earlier row. *)
Lemma duplicated_first_exists (rs : list (Z * list value)) :
  forall seen,
    existsb (fun b => b) (DataCleaningService.duplicated_first seen rs)
    = existsb (fun r => existsb (row_eqb (snd r)) seen) rs || Spec.repeated_row rs.
Proof.
  induction rs as [|r rs IH]; intros seen; simpl; [reflexivity|].
  destruct (existsb (row_eqb (snd r)) seen) eqn:E; simpl; [reflexivity|].
  rewrite (IH (snd r :: seen)). simpl.
  assert (Hex : existsb (fun r0 => row_eqb (snd r0) (snd r) || existsb (row_eqb (snd r0)) seen) rs
                = existsb (fun r' => row_eqb (snd r') (snd r)) rs
                  || existsb (fun r0 => existsb (row_eqb (snd r0)) seen) rs).
  { clear. induction rs as [|a rs IH]; simpl; [reflexivity|]. rewrite IH.
    destruct (row_eqb (snd a) (snd r)), (existsb (row_eqb (snd a)) seen),
      (existsb (fun r' => row_eqb (snd r') (snd r)) rs); reflexivity. }
  rewrite Hex.
  destruct (existsb (fun r' => row_eqb (snd r') (snd r)) rs),
    (existsb (fun r0 => existsb (row_eqb (snd r0)) seen) rs),
    (Spec.repeated_row rs); reflexivity.
Qed.

Lemma count_true_zero (mask : list bool) :
  DataCleaningService.count_true mask = 0%nat <-> existsb (fun b => b) mask = false.
Proof.
  unfold DataCleaningService.count_true.
  induction mask as [|b mask IH]; simpl; [tauto|].
  destruct b; simpl; [split; discriminate | exact IH].
Qed.

Lemma duplicated_first_zero (rs : list (Z * list value)) :
  DataCleaningService.count_true (DataCleaningService.duplicated_first [] rs) = 0%nat
  <-> Spec.repeated_row rs = false.
Proof.
  rewrite count_true_zero, duplicated_first_exists.
  assert (E : existsb (fun r => existsb (row_eqb (snd r)) []) rs = false).
  { induction rs; simpl; [reflexivity | assumption]. }
  rewrite E. reflexivity.
Qed.

End Duplicates.

Section DuplicateGroups.

(** [data[mask]] with the mask computed row by row is a filter. *)
Lemma filter_combine_map (f : Z * list value -> bool) (rs : list (Z * list value)) :
  map fst (filter snd (combine rs (map f rs))) = filter f rs.
Proof.
  induction rs as [|r rs IH]; simpl; [reflexivity|].
  destruct (f r); simpl; rewrite IH; reflexivity.
Qed.

Lemma existsb_false_In {A : Type} (p : A -> bool) (l : list A) :
  existsb p l = false <-> (forall x, In x l -> p x = false).
Proof.
  induction l as [|a l IH]; simpl.
  - split; [intros _ x [] | reflexivity].
  - rewrite orb_false_iff, IH. split.
    + intros [Ha Hl] x [<- | Hx]; [exact Ha | apply Hl; exact Hx].
    + intros H. split; [apply H; left; reflexivity | intros x Hx; apply H; right; exact Hx].
Qed.

Lemma filter_nonempty_In {A : Type} (p : A -> bool) (l : list A) (x : A) :
  In x l -> p x = true -> (1 <= List.length (filter p l))%nat.
Proof.
  intros Hin Hp.
  assert (H : In x (filter p l)) by (apply filter_In; split; assumption).
  destruct (filter p l); [destruct H | simpl; lia].
Qed.

(** A row occurs at least twice exactly when some row repeats an earlier
    one. *)
Lemma group_of_two (rs : list (Z * list value)) :
  (exists r, In r rs /\
             (2 <= List.length (filter (fun r' => row_eqb (snd r) (snd r')) rs))%nat)
  <-> Spec.repeated_row rs = true.
Proof.
  induction rs as [|a rs IH]; simpl.
  - split; [intros (r & [] & _) | discriminate].
  - rewrite orb_true_iff. split.
    + intros (r & [<- | Hr] & Hc).
      * left. rewrite row_eqb_refl in Hc. simpl in Hc.
        destruct (filter (fun r' => row_eqb (snd a) (snd r')) rs) as [|b l] eqn:E;
          [simpl in Hc; lia|].
        assert (Hb : In b (filter (fun r' => row_eqb (snd a) (snd r')) rs))
          by (rewrite E; left; reflexivity).
        apply filter_In in Hb. destruct Hb as [Hb Heq].
        apply existsb_exists. exists b. split; [exact Hb|].
        rewrite row_eqb_sym. exact Heq.
      * destruct (row_eqb (snd r) (snd a)) eqn:Era.
        -- left. apply existsb_exists. exists r. split; assumption.
        -- right. apply IH. exists r. split; assumption.
    + intros [H | H].
      * apply existsb_exists in H. destruct H as (b & Hb & Heq).
        exists b. split; [right; exact Hb|]. rewrite Heq. simpl.
        pose proof (filter_nonempty_In (fun r' => row_eqb (snd b) (snd r')) rs b Hb
                      (row_eqb_refl (snd b))). lia.
      * apply IH in H. destruct H as (r & Hr & Hc).
        exists r. split; [right; exact Hr|].
        destruct (row_eqb (snd r) (snd a)); simpl; lia.
Qed.

Lemma duplicated_all_none (rs : list (Z * list value)) :
  filter snd (combine rs (DataCleaningService.duplicated_all rs)) = []
  <-> Spec.repeated_row rs = false.
Proof.
  unfold DataCleaningService.duplicated_all.
  set (f := fun r : Z * list value =>
              (2 <=? List.length (filter (fun r' => row_eqb (snd r) (snd r')) rs))%nat).
  split.
  - intros H. destruct (Spec.repeated_row rs) eqn:E; [|reflexivity].
    apply group_of_two in E. destruct E as (r & Hr & Hc).
    assert (Hin : In r (filter f rs)).
    { apply filter_In. split; [exact Hr|]. unfold f. apply Nat.leb_le. exact Hc. }
    rewrite <- filter_combine_map, H in Hin. destruct Hin.
  - intros H.
    assert (Hf : filter f rs = []).
    { destruct (filter f rs) as [|r l] eqn:E; [reflexivity|].
      assert (Hin : In r (filter f rs)) by (rewrite E; left; reflexivity).
      apply filter_In in Hin. destruct Hin as [Hr Hfr]. unfold f in Hfr.
      apply Nat.leb_le in Hfr.
      assert (Hrep : Spec.repeated_row rs = true)
        by (apply group_of_two; exists r; split; assumption).
      congruence. }
    rewrite <- filter_combine_map in Hf.
    destruct (filter snd (combine rs (map f rs))); [reflexivity | discriminate].
Qed.

Lemma drop_duplicates_rows_same_length (rs : list (Z * list value)) :
  forall seen,
    List.length (drop_duplicates_rows seen rs) = List.length rs ->
    drop_duplicates_rows seen rs = rs.
Proof.
  induction rs as [|r rs IH]; intros seen; simpl; [reflexivity|].
  destruct (existsb (row_eqb (snd r)) seen); simpl.
  - pose proof (drop_duplicates_rows_length rs seen). lia.
  - intros H. f_equal. apply IH. lia.
Qed.

Lemma duplicate_indices_nil (df : DataFrame) :
  DataCleaningService.duplicate_indices (DataCleaningService.detect_duplicates df) = []
  <-> Spec.repeated_row (rows df) = false.
Proof.
  rewrite <- duplicated_all_none. simpl.
  destruct (filter snd (combine (rows df) (DataCleaningService.duplicated_all (rows df))));
    simpl; split; intros H; try reflexivity; discriminate.
Qed.

End DuplicateGroups.

(** X5.  The number of duplicates [detect_duplicates] reports is the
    number of rows [drop_duplicates] removes. *)
Theorem detect_duplicates_counts_dropped_rows :
  forall df,
    (DataCleaningService.total_duplicates (DataCleaningService.detect_duplicates df)
     + len (drop_duplicates df) = len df)%nat /\
    DataCleaningService.total_rows (DataCleaningService.detect_duplicates df) = len df.
Proof.
  intros df. split; [|reflexivity]. apply duplicated_first_count.
Qed.

(** X6.  The duplicate percentage is always a finite number [p] with
    [0 <= p < 100] and [p * rows = 100 * duplicates]; on a frame without
    rows it is 0. *)
Theorem detect_duplicates_percentage :
  forall df,
    exists p,
      DataCleaningService.duplicate_percentage (DataCleaningService.detect_duplicates df)
      = Finite p /\
      0 <= p /\ p < 100 /\
      p * inject_Z (Z.of_nat (len df))
      == 100 * inject_Z (Z.of_nat (DataCleaningService.total_duplicates
                                     (DataCleaningService.detect_duplicates df))).
Proof.
  intros df. simpl.
  pose proof (duplicated_first_count (rows df) []) as Hc.
  pose proof (drop_duplicates_rows_length (rows df) []) as Hle.
  unfold len. destruct (rows df) as [|r rs].
  - simpl. exists 0. repeat split; lra.
  - remember (DataCleaningService.count_true
                (DataCleaningService.duplicated_first [] (r :: rs))) as d eqn:Ed.
    clear Ed. simpl in Hc.
    cbn [List.length Nat.ltb Nat.leb].
    unfold true_divide.
    destruct (Z.of_nat (S (List.length rs)) =? 0)%Z eqn:Ez; [apply Z.eqb_eq in Ez; lia|].
    cbn [fmul]. eexists. split; [reflexivity|].
    assert (Hlt : (d < S (List.length rs))%nat) by (simpl in Hc; lia).
    set (a := inject_Z (Z.of_nat d)).
    set (b := inject_Z (Z.of_nat (S (List.length rs)))).
    assert (Ha : 0 <= a).
    { unfold a. change 0 with (inject_Z 0). rewrite <- Zle_Qle. lia. }
    assert (Hab : a < b).
    { unfold a, b. rewrite <- Zlt_Qlt. lia. }
    assert (Hq : 0 <= a / b /\ a / b < 1).
    { split.
      - apply Qle_shift_div_l; lra.
      - apply Qlt_shift_div_r; lra. }
    split; [lra|]. split; [lra|]. field. lra.
Qed.

(** X7.  [detect_duplicates] reports no duplicate exactly when its list of
    indices is empty, exactly when no row repeats an earlier one, exactly
    when [drop_duplicates] leaves the frame as it is. *)
Theorem detect_duplicates_none :
  forall df,
    let info := DataCleaningService.detect_duplicates df in
    (DataCleaningService.total_duplicates info = 0%nat
     <-> DataCleaningService.duplicate_indices info = []) /\
    (DataCleaningService.total_duplicates info = 0%nat
     <-> Spec.repeated_row (rows df) = false) /\
    (DataCleaningService.total_duplicates info = 0%nat
     <-> drop_duplicates df = df).
Proof.
  intros df info. subst info.
  pose proof (duplicated_first_zero (rows df)) as Hz.
  pose proof (duplicate_indices_nil df) as Hi.
  split; [|split].
  - rewrite Hi. exact Hz.
  - exact Hz.
  - pose proof (duplicated_first_count (rows df) []) as Hc.
    cbn [DataCleaningService.detect_duplicates DataCleaningService.total_duplicates].
    split.
    + intros H0. rewrite H0 in Hc. simpl in Hc.
      unfold drop_duplicates. rewrite (drop_duplicates_rows_same_length _ _ Hc).
      destruct df; reflexivity.
    + intros H. unfold drop_duplicates in H.
      assert (E : drop_duplicates_rows [] (rows df) = rows df).
      { destruct df as [cols rs]. simpl in *. congruence. }
      rewrite E in Hc. lia.
Qed.

Lemma detect_duplicates_none_witness :
  let info := DataCleaningService.detect_duplicates Examples.constant_frame in
  (DataCleaningService.total_duplicates info = 0%nat
   <-> DataCleaningService.duplicate_indices info = []) /\
  (DataCleaningService.total_duplicates info = 0%nat
   <-> Spec.repeated_row (rows Examples.constant_frame) = false) /\
  (DataCleaningService.total_duplicates info = 0%nat
   <-> drop_duplicates Examples.constant_frame = Examples.constant_frame).
Proof. exact (detect_duplicates_none Examples.constant_frame). Defined.

Section AfterDropDuplicates.

Lemma drop_duplicates_rows_no_repeat (rs : list (Z * list value)) :
  Spec.repeated_row (drop_duplicates_rows [] rs) = false.
Proof.
  apply duplicated_first_zero.
  pose proof (duplicated_first_count (drop_duplicates_rows [] rs) []) as Hc.
  rewrite drop_duplicates_rows_idempotent in Hc by tauto. lia.
Qed.

(** Selecting rows with a mask does not create repetitions. *)
Lemma boolean_index_no_repeat (rs : list (Z * list value)) :
  forall mask : list (Z * bool),
    Spec.repeated_row rs = false ->
    Spec.repeated_row (map snd (filter (fun p => snd (fst p)) (combine mask rs))) = false.
Proof.
  induction rs as [|r rs IH]; intros mask Hno.
  - destruct mask; reflexivity.
  - destruct mask as [|m mask]; [reflexivity|].
    simpl in Hno. apply orb_false_iff in Hno. destruct Hno as [Hr Hrs].
    simpl. destruct (snd m); simpl.
    + rewrite (IH mask Hrs), orb_false_r.
      apply existsb_false_In. intros x Hx.
      apply (proj1 (existsb_false_In _ _) Hr).
      apply in_map_iff in Hx. destruct Hx as ([m' x'] & <- & Hin).
      apply filter_In in Hin. destruct Hin as [Hin _].
      eapply in_combine_r, Hin.
    + apply IH. exact Hrs.
Qed.

Lemma remove_outlier_rows_is_mask (df cleaned : DataFrame) (c m : string) :
  DataCleaningService.remove_outlier_rows df c m = Ok cleaned ->
  exists mask, cleaned = boolean_index df mask.
Proof.
  unfold DataCleaningService.remove_outlier_rows.
  destruct (negb (has_column df c)); [discriminate|].
  destruct (getitem df c) as [s|e]; simpl; [|discriminate].
  destruct (DataCleaningService.keep_mask (dropna_series s) m) as [k|e];
    simpl; [|discriminate].
  intros H; injection H as <-. eexists. reflexivity.
Qed.

Lemma clean_dataset_no_repeat df hm ro oc om cleaned :
  DataCleaningService.clean_dataset df hm true ro oc om = Ok cleaned ->
  Spec.repeated_row (rows cleaned) = false.
Proof.
  unfold DataCleaningService.clean_dataset.
  set (d2 := drop_duplicates (DataCleaningService.handle_missing_values hm df)).
  assert (H2 : Spec.repeated_row (rows d2) = false)
    by apply drop_duplicates_rows_no_repeat.
  destruct (ro && truthy oc).
  - destruct oc as [c|].
    + intros H. apply remove_outlier_rows_is_mask in H. destruct H as (mask & ->).
      apply boolean_index_no_repeat. exact H2.
    + intros H; injection H as <-. exact H2.
  - intros H; injection H as <-. exact H2.
Qed.

Lemma filter_all_true {A : Type} (p : A -> bool) (l : list A) :
  (forall x, In x l -> p x = true) -> filter p l = l.
Proof.
  induction l as [|a l IH]; intros H; simpl; [reflexivity|].
  rewrite (H a (or_introl eq_refl)). f_equal. apply IH.
  intros x Hx. apply H. right. exact Hx.
Qed.

(** [dropna] leaves a frame without missing cells as it is. *)
Lemma dropna_null_free_id (df : DataFrame) :
  (forall r, In r (rows df) -> existsb isnull (snd r) = false) -> dropna df = df.
Proof.
  intros H. unfold dropna. rewrite filter_all_true.
  - destruct df; reflexivity.
  - intros r Hr. rewrite (H r Hr). reflexivity.
Qed.

Lemma dropna_rows_complete (df : DataFrame) r :
  In r (rows (dropna df)) -> existsb isnull (snd r) = false.
Proof.
  unfold dropna; simpl. intros H. apply filter_In in H.
  destruct H as [_ H]. apply negb_true_iff in H. exact H.
Qed.

End AfterDropDuplicates.

(** X8.  On the result of [clean_dataset] with [remove_duplicates] set
    (whatever the policy and the outlier options), [detect_duplicates]
    reports nothing: no duplicate, no index, a percentage of 0. *)
Theorem detect_duplicates_after_clean :
  forall df hm ro oc om cleaned,
    DataCleaningService.clean_dataset df hm true ro oc om = Ok cleaned ->
    DataCleaningService.total_duplicates
      (DataCleaningService.detect_duplicates cleaned) = 0%nat /\
    DataCleaningService.duplicate_indices
      (DataCleaningService.detect_duplicates cleaned) = [] /\
    exists p,
      DataCleaningService.duplicate_percentage
        (DataCleaningService.detect_duplicates cleaned) = Finite p /\ p == 0.
Proof.
  intros df hm ro oc om cleaned H.
  pose proof (clean_dataset_no_repeat _ _ _ _ _ _ H) as Hno.
  assert (H0 : DataCleaningService.count_true
                 (DataCleaningService.duplicated_first [] (rows cleaned)) = 0%nat)
    by (apply duplicated_first_zero; exact Hno).
  split; [exact H0|]. split; [apply duplicate_indices_nil; exact Hno|].
  cbn [DataCleaningService.detect_duplicates DataCleaningService.duplicate_percentage].
  rewrite H0. destruct (0 <? len cleaned)%nat eqn:E.
  - unfold true_divide. apply Nat.ltb_lt in E.
    destruct (Z.of_nat (len cleaned) =? 0)%Z eqn:Ez; [apply Z.eqb_eq in Ez; lia|].
    eexists. split; [reflexivity|]. change (inject_Z (Z.of_nat 0)) with 0.
    unfold Qdiv. ring.
  - exists 0. split; reflexivity.
Qed.

Lemma detect_duplicates_after_clean_witness :
  exists cleaned,
    DataCleaningService.clean_dataset
      (mkDataFrame [("x"%string, float64)]
         [(0%Z, [Num 1]); (1%Z, [Num 2]); (2%Z, [Num 1])])
      "mean" true false None "zscore" = Ok cleaned /\
    len cleaned = 2%nat /\
    DataCleaningService.total_duplicates
      (DataCleaningService.detect_duplicates cleaned) = 0%nat /\
    DataCleaningService.duplicate_indices
      (DataCleaningService.detect_duplicates cleaned) = [] /\
    exists p,
      DataCleaningService.duplicate_percentage
        (DataCleaningService.detect_duplicates cleaned) = Finite p /\ p == 0.
Proof.
  eexists. split; [vm_compute; reflexivity|]. split; [reflexivity|].
  apply (detect_duplicates_after_clean
           (mkDataFrame [("x"%string, float64)]
              [(0%Z, [Num 1]); (1%Z, [Num 2]); (2%Z, [Num 1])])
           "mean" false None "zscore").
  vm_compute. reflexivity.
Defined.

(** X9.  With the "drop" policy and outlier removal off, [clean_dataset]
    always succeeds and cleaning its result again changes nothing. *)
Theorem clean_dataset_drop_idempotent :
  forall df rd oc om,
    exists cleaned,
      DataCleaningService.clean_dataset df "drop" rd false oc om = Ok cleaned /\
      DataCleaningService.clean_dataset cleaned "drop" rd false oc om = Ok cleaned.
Proof.
  intros df rd oc om. eexists. split; [reflexivity|].
  unfold DataCleaningService.clean_dataset. cbn [andb].
  change (DataCleaningService.handle_missing_values "drop") with dropna.
  f_equal. destruct rd.
  - rewrite (dropna_null_free_id (drop_duplicates (dropna df))).
    + apply drop_duplicates_idempotent.
    + intros r Hr. apply (dropna_rows_complete df).
      eapply drop_duplicates_rows_In. exact Hr.
  - apply dropna_null_free_id. apply dropna_rows_complete.
Qed.

(** ** Filling missing values *)

Section FillNa.

Variable agg : list Q -> npfloat.

Lemma fill_values_nth (rs : list (Z * list value)) (cols : list (string * dtype)) :
  forall j0 k name t,
    nth_error cols k = Some (name, t) ->
    nth k (fill_values agg j0 cols rs) None
    = if is_np_number t
      then match agg (column_numbers (j0 + k) rs) with
           | Finite m => Some m
           | _ => None
           end
      else None.
Proof.
  induction cols as [|[n0 t0] cols IH]; intros j0 k name t Hk.
  - destruct k; discriminate.
  - destruct k as [|k]; simpl in Hk.
    + injection Hk as _ ->. simpl. rewrite Nat.add_0_r. reflexivity.
    + simpl. rewrite (IH (S j0) k name t Hk).
      replace (S j0 + k)%nat with (j0 + S k)%nat by lia. reflexivity.
Qed.

Lemma fill_row_nth (fills : list (option Q)) :
  forall (r : list value) k,
    (k < List.length r)%nat ->
    nth k (fill_row fills r) Null
    = match nth k fills None, nth k r Null with
      | Some m, Null => Num m
      | _, v => v
      end.
Proof.
  induction fills as [|f fills IH]; intros r k Hk.
  - simpl. destruct r; [simpl in Hk; lia|]. destruct k; reflexivity.
  - destruct r as [|v r]; [simpl in Hk; lia|].
    destruct k as [|k].
    + destruct f, v; reflexivity.
    + simpl in Hk.
      assert (E : nth (S k) (fill_row (f :: fills) (v :: r)) Null
                  = nth k (fill_row fills r) Null)
        by (destruct f, v; reflexivity).
      rewrite E. simpl. apply IH. lia.
Qed.

Lemma get_loc_nth_error (c : string) (cols : list (string * dtype)) :
  forall j t, get_loc c cols = Some (j, t) ->
              exists name, nth_error cols j = Some (name, t).
Proof.
  induction cols as [|[n0 t0] cols IH]; intros j t; simpl; [discriminate|].
  destruct (String.eqb n0 c).
  - intros H; injection H as <- <-. exists n0. reflexivity.
  - destruct (get_loc c cols) as [[j' t']|]; [|discriminate].
    intros H; injection H as <- <-. apply (IH j' t' eq_refl).
Qed.

Lemma fillna_numeric_getitem (df : DataFrame) (c : string) (j : nat) (t : dtype) :
  Spec.rectangular df ->
  get_loc c (columns df) = Some (j, t) ->
  getitem (fillna_numeric agg df) c
  = Ok (mkSeries t
          (map (fun r => (fst r,
                          Spec.fill_cell
                            (if is_np_number t
                             then agg (column_numbers j (rows df))
                             else nan)
                            (nth j (snd r) Null)))
               (rows df))).
Proof.
  intros Hrect Hloc. unfold getitem, fillna_numeric. cbn [columns rows].
  rewrite Hloc. f_equal. f_equal. rewrite map_map. apply map_ext_in.
  intros r Hr. cbn [fst snd]. f_equal.
  destruct (get_loc_nth_error c (columns df) j t Hloc) as (name & Hnth).
  assert (Hj : (j < List.length (snd r))%nat).
  { rewrite (Hrect r Hr). apply nth_error_Some. congruence. }
  rewrite (fill_row_nth _ _ _ Hj).
  rewrite (fill_values_nth (rows df) (columns df) 0 j name t Hnth).
  cbn [Nat.add]. unfold Spec.fill_cell.
  destruct (is_np_number t); [|destruct (nth j (snd r) Null); reflexivity].
  destruct (agg (column_numbers j (rows df))); destruct (nth j (snd r) Null); reflexivity.
Qed.

End FillNa.

Section KeptCells.

Lemma Forall2_map_same {A B C : Type} (R : B -> C -> Prop) (f : A -> B) (g : A -> C)
      (l : list A) :
  (forall x, In x l -> R (f x) (g x)) -> Forall2 R (map f l) (map g l).
Proof.
  induction l as [|a l IH]; intros H; simpl; constructor.
  - apply H. left. reflexivity.
  - apply IH. intros x Hx. apply H. right. exact Hx.
Qed.

Lemma fill_cell_keeps (a : npfloat) (v : value) : v <> Null -> Spec.fill_cell a v = v.
Proof. intros H. destruct a, v; try reflexivity; congruence. Qed.

Lemma fill_cell_isnull (a : npfloat) (v : value) :
  isnull (Spec.fill_cell a v) = true -> isnull v = true.
Proof. destruct a, v; simpl; congruence. Qed.

Lemma fill_cell_nan (v : value) : Spec.fill_cell nan v = v.
Proof. destruct v; reflexivity. Qed.

(** Without a number in the column, or outside the integer and floating
    dtypes, the aggregate of either policy is NaN. *)
Lemma aggregate_nan (use_median : bool) (t : dtype) (xs : list Q) :
  is_np_number t = false \/ xs = [] ->
  (if is_np_number t then (if use_median then median else mean) xs else nan) = nan.
Proof.
  intros [-> | ->]; [reflexivity|].
  destruct (is_np_number t); [destruct use_median|]; reflexivity.
Qed.

Lemma column_numbers_all_null (j : nat) (rs : list (Z * list value)) :
  (forall r, In r rs -> nth j (snd r) Null = Null) -> column_numbers j rs = [].
Proof.
  unfold column_numbers. induction rs as [|r rs IH]; intros H; simpl; [reflexivity|].
  rewrite (H r (or_introl eq_refl)). simpl.
  apply IH. intros r' Hr'. apply H. right. exact Hr'.
Qed.

Lemma filter_length_mono {A : Type} (p q : A -> bool) (l : list A) :
  (forall x, In x l -> p x = true -> q x = true) ->
  (List.length (filter p l) <= List.length (filter q l))%nat.
Proof.
  induction l as [|a l IH]; intros H; simpl; [lia|].
  assert (IH' : (List.length (filter p l) <= List.length (filter q l))%nat)
    by (apply IH; intros x Hx; apply H; right; exact Hx).
  destruct (p a) eqn:Ep.
  - rewrite (H a (or_introl eq_refl) Ep). simpl. lia.
  - destruct (q a); simpl; lia.
Qed.

End KeptCells.

(** X10.  The "mean" and "median" policies keep the index and the columns
    with their dtypes.  In every column each cell keeps its label and a
    cell that is not missing keeps its value; a column that is not of
    integer or floating dtype, and a column whose cells are all missing,
    is left exactly as it was. *)
Theorem clean_dataset_fill_keeps_data :
  forall df (use_median : bool) oc om c j t,
    let hm := if use_median then "median"%string else "mean"%string in
    Spec.rectangular df ->
    get_loc c (columns df) = Some (j, t) ->
    exists filled s0 s,
      DataCleaningService.clean_dataset df hm false false oc om = Ok filled /\
      index filled = index df /\
      columns filled = columns df /\
      getitem df c = Ok s0 /\
      getitem filled c = Ok s /\
      s_dtype s = s_dtype s0 /\
      Forall2 (fun p0 p => fst p = fst p0 /\ (snd p0 <> Null -> snd p = snd p0))
              (s_items s0) (s_items s) /\
      (is_np_number t = false \/ (forall i v, In (i, v) (s_items s0) -> v = Null) ->
       s = s0).
Proof.
  intros df use_median oc om c j t hm Hrect Hloc.
  set (agg := if use_median then median else mean).
  exists (fillna_numeric agg df). do 2 eexists.
  split; [unfold hm, agg; destruct use_median; reflexivity|].
  split; [unfold index, fillna_numeric; cbn [rows]; rewrite map_map; reflexivity|].
  split; [reflexivity|].
  split; [unfold getitem; rewrite Hloc; reflexivity|].
  split; [apply (fillna_numeric_getitem agg df c j t Hrect Hloc)|].
  split; [reflexivity|]. cbn [s_items]. split.
  - apply Forall2_map_same. intros r _. cbn [fst snd]. split; [reflexivity|].
    apply fill_cell_keeps.
  - intros Hcase. f_equal. apply map_ext. intros r. f_equal.
    unfold agg. rewrite (aggregate_nan use_median t (column_numbers j (rows df)));
      [apply fill_cell_nan|].
    destruct Hcase as [Hnn | Hnull]; [left; exact Hnn | right].
    apply column_numbers_all_null. intros r' Hr'.
    apply (Hnull (fst r')). apply in_map_iff. exists r'. split; [reflexivity | exact Hr'].
Qed.

Lemma clean_dataset_fill_keeps_data_witness :
  exists filled s0 s,
    DataCleaningService.clean_dataset Examples.frame_with_null
      "mean" false false None "zscore" = Ok filled /\
    index filled = index Examples.frame_with_null /\
    columns filled = columns Examples.frame_with_null /\
    getitem Examples.frame_with_null "x" = Ok s0 /\
    getitem filled "x" = Ok s /\
    s_dtype s = s_dtype s0 /\
    Forall2 (fun p0 p => fst p = fst p0 /\ (snd p0 <> Null -> snd p = snd p0))
            (s_items s0) (s_items s) /\
    (is_np_number float64 = false
     \/ (forall i v, In (i, v) (s_items s0) -> v = Null) -> s = s0).
Proof.
  apply (clean_dataset_fill_keeps_data Examples.frame_with_null false None "zscore"
           "x"%string 1%nat float64).
  - intros r Hr. simpl in Hr.
    destruct Hr as [<- | [<- | [<- | []]]]; reflexivity.
  - reflexivity.
Defined.

(** ** The outlier method *)

(** X11.  With a method other than "zscore" and "iqr", [detect_outliers] on
    an existing column and [clean_dataset] with outlier removal on an
    existing, non-empty target column raise
    [ValueError("Method must be 'zscore' or 'iqr'")], whatever the data of
    the column. *)
Theorem unknown_outlier_method :
  forall df hm rd c method,
    String.eqb method "zscore" = false ->
    String.eqb method "iqr" = false ->
    c <> ""%string ->
    has_column df c = true ->
    DataCleaningService.detect_outliers df c method
    = Raise (ValueError "Method must be 'zscore' or 'iqr'") /\
    DataCleaningService.clean_dataset df hm rd true (Some c) method
    = Raise (ValueError "Method must be 'zscore' or 'iqr'").
Proof.
  intros df hm rd c method Hz Hi Hc Hcol.
  assert (Hget : forall d, columns d = columns df -> exists s, getitem d c = Ok s).
  { intros d Hd. unfold getitem. rewrite Hd.
    unfold has_column in Hcol.
    destruct (get_loc c (columns df)) as [[j t]|] eqn:E; [eexists; reflexivity|].
    exfalso. clear -Hcol E. induction (columns df) as [|[n t] cols IH]; [discriminate|].
    simpl in *. destruct (String.eqb n c); [discriminate|].
    destruct (get_loc c cols) as [[j t']|]; [discriminate|]. apply IH; auto. }
  split.
  - unfold DataCleaningService.detect_outliers.
    destruct (Hget df eq_refl) as (s & ->). cbn [bind]. rewrite Hz, Hi. reflexivity.
  - unfold DataCleaningService.clean_dataset.
    rewrite (truthy_nonempty c Hc). cbn [andb].
    unfold DataCleaningService.remove_outlier_rows.
    rewrite (has_column_columns _ df c (stage2_columns hm rd df)), Hcol. cbn [negb].
    destruct (Hget _ (stage2_columns hm rd df)) as (s & ->). cbn [bind].
    unfold DataCleaningService.keep_mask. rewrite Hz, Hi. reflexivity.
Qed.

Lemma unknown_outlier_method_witness :
  DataCleaningService.detect_outliers Examples.constant_frame "x" "mad"
  = Raise (ValueError "Method must be 'zscore' or 'iqr'") /\
  DataCleaningService.clean_dataset Examples.constant_frame
    "drop" true true (Some "x"%string) "mad"
  = Raise (ValueError "Method must be 'zscore' or 'iqr'").
Proof.
  apply (unknown_outlier_method Examples.constant_frame "drop" true "x" "mad").
  - reflexivity.
  - reflexivity.
  - discriminate.
  - reflexivity.
Defined.

(** ** Outlier removal against outlier detection *)

Section MaskAssignment.

Lemma setitem_label_map (g : Z -> bool) (idx : list Z) (l : Z) (v : bool) :
  setitem_label (map (fun i => (i, g i)) idx) l v
  = map (fun i => (i, if (i =? l)%Z then v else g i)) idx.
Proof.
  unfold setitem_label. rewrite map_map. apply map_ext.
  intros i. cbn [fst]. destruct (i =? l)%Z; reflexivity.
Qed.

Lemma setitem_map (idx : list Z) (labels : list Z) :
  forall vals g,
    setitem (map (fun i => (i, g i)) idx) labels vals
    = map (fun i => (i, Spec.assigned g labels vals i)) idx.
Proof.
  induction labels as [|l labels IH]; intros vals g; [reflexivity|].
  destruct vals as [|v vals]; [reflexivity|].
  cbn [setitem Spec.assigned]. rewrite setitem_label_map. apply IH.
Qed.

Lemma assigned_notin (labels : list Z) :
  forall vals g l, ~ In l labels -> Spec.assigned g labels vals l = g l.
Proof.
  induction labels as [|l' labels IH]; intros vals g l Hno; [reflexivity|].
  destruct vals as [|v vals]; [reflexivity|].
  cbn [Spec.assigned]. rewrite IH by (simpl in Hno; tauto).
  destruct (l =? l')%Z eqn:E; [|reflexivity].
  apply Z.eqb_eq in E. simpl in Hno. exfalso. apply Hno. left. congruence.
Qed.

Lemma assigned_in {A : Type} (k : Z * A -> bool) (items : list (Z * A)) :
  forall g it,
    NoDup (map fst items) -> In it items ->
    Spec.assigned g (map fst items) (map k items) (fst it) = k it.
Proof.
  induction items as [|a items IH]; intros g it Hnd Hin; [destruct Hin|].
  cbn [map Spec.assigned]. inversion Hnd as [|? ? Hnotin Hnd']; subst.
  destruct Hin as [-> | Hin].
  - rewrite assigned_notin by exact Hnotin.
    rewrite Z.eqb_refl. reflexivity.
  - apply IH; assumption.
Qed.

End MaskAssignment.

Section MaskedRows.

Lemma boolean_index_map (G : Z -> bool) (rs : list (Z * list value)) :
  map snd (filter (fun p : (Z * bool) * (Z * list value) => snd (fst p))
             (combine (map (fun i => (i, G i)) (map fst rs)) rs))
  = filter (fun r => G (fst r)) rs.
Proof.
  induction rs as [|r rs IH]; simpl; [reflexivity|].
  destruct (G (fst r)); simpl; rewrite IH; reflexivity.
Qed.

Lemma count_true_map {A : Type} (f : A -> bool) (l : list A) :
  DataCleaningService.count_true (map f l) = List.length (filter f l).
Proof.
  unfold DataCleaningService.count_true.
  induction l as [|a l IH]; simpl; [reflexivity|].
  destruct (f a); simpl; rewrite IH; reflexivity.
Qed.

Lemma NoDup_map_fst_filter {A : Type} (p : Z * A -> bool) (l : list (Z * A)) :
  NoDup (map fst l) -> NoDup (map fst (filter p l)).
Proof.
  induction l as [|a l IH]; simpl; intros Hnd; [constructor|].
  inversion Hnd as [|? ? Hnotin Hnd']; subst.
  destruct (p a); simpl; [|apply IH; exact Hnd'].
  constructor; [|apply IH; exact Hnd'].
  intros Hin. apply Hnotin. apply in_map_iff in Hin.
  destruct Hin as (x & E & Hx). apply filter_In in Hx.
  apply in_map_iff. exists x. tauto.
Qed.

Lemma combine_fst {A B : Type} (l : list A) :
  forall l' : list B, List.length l' = List.length l -> map fst (combine l l') = l.
Proof.
  induction l as [|a l IH]; intros [|b l'] H; simpl in *;
    try reflexivity; try discriminate.
  rewrite IH by lia. reflexivity.
Qed.

Lemma combine_snd {A B : Type} (l : list A) :
  forall l' : list B, List.length l' = List.length l -> map snd (combine l l') = l'.
Proof.
  induction l as [|a l IH]; intros [|b l'] H; simpl in *;
    try reflexivity; try discriminate.
  rewrite IH by lia. reflexivity.
Qed.

(** The labels that a mask selects, read off the labels alone. *)
Lemma select_labels {A W : Type} (g : W -> bool) (items : list (Z * A)) :
  forall ws,
    List.length ws = List.length items ->
    map fst (map fst (filter snd (combine items (map g ws))))
    = map fst (filter (fun q => g (snd q)) (combine (map fst items) ws)).
Proof.
  induction items as [|p items IH]; intros [|w ws] H; simpl in *;
    try reflexivity; try discriminate.
  destruct (g w); simpl; rewrite IH by lia; reflexivity.
Qed.

(** Two masks over the non-missing cells of a column, one value [w] per
    cell: [gF] flags the cell, [gK] keeps its row, and no cell is both
    flagged and kept. *)
Variable W : Type.
Variable rs : list (Z * list value).
Variable items : list (Z * value).
Variable ws : list W.
Variables gF gK : W -> bool.

Hypothesis same_length : List.length ws = List.length items.
Hypothesis unique_labels : NoDup (map fst items).
Hypothesis labels_of_rows : incl (map fst items) (map fst rs).
Hypothesis exclusive : forall w, In w ws -> gF w = true -> gK w = false.

Lemma labelled_values :
  map fst (combine (map fst items) ws) = map fst items /\
  map gK ws = map (fun q => gK (snd q)) (combine (map fst items) ws) /\
  map gF ws = map (fun q => gF (snd q)) (combine (map fst items) ws).
Proof.
  assert (Hl : List.length ws = List.length (map fst items))
    by (rewrite length_map; exact same_length).
  split; [apply combine_fst; exact Hl|].
  split; rewrite <- (map_map snd), (combine_snd _ _ Hl); reflexivity.
Qed.

(** A label at which the full mask is true is not a flagged label. *)
Lemma kept_not_flagged (l : Z) :
  Spec.assigned (fun _ => true) (map fst items) (map gK ws) l = true ->
  ~ In l (map fst (map fst (filter snd (combine items (map gF ws))))).
Proof.
  rewrite (select_labels gF items ws same_length).
  destruct labelled_values as (E1 & E2 & _).
  intros HG Hin.
  apply in_map_iff in Hin. destruct Hin as (q & <- & Hq).
  apply filter_In in Hq. destruct Hq as [Hq Hf].
  assert (HG' : Spec.assigned (fun _ => true)
                  (map fst (combine (map fst items) ws))
                  (map (fun q => gK (snd q)) (combine (map fst items) ws))
                  (fst q) = true)
    by (rewrite E1, <- E2; exact HG).
  rewrite (assigned_in (fun q => gK (snd q)) (combine (map fst items) ws) _ q) in HG';
    [| rewrite E1; exact unique_labels | exact Hq].
  destruct q as [l w]. apply in_combine_r in Hq. cbn [snd] in *.
  rewrite (exclusive w Hq Hf) in HG'. discriminate.
Qed.

(** The rows that stay are rows of the frame whose label is not flagged. *)
Lemma kept_rows_not_flagged (r : Z * list value) :
  In r (map snd (filter (fun p : (Z * bool) * (Z * list value) => snd (fst p))
                   (combine (setitem (full true (map fst rs)) (map fst items)
                                     (map gK ws))
                            rs))) ->
  In r rs /\ ~ In (fst r) (map fst (map fst (filter snd (combine items (map gF ws))))).
Proof.
  unfold full. rewrite setitem_map, boolean_index_map. intros Hr.
  apply filter_In in Hr. destruct Hr as [Hr HG].
  split; [exact Hr | apply kept_not_flagged; exact HG].
Qed.

(** The rows that stay and the flagged cells fit into the frame together. *)
Lemma kept_rows_length :
  (List.length
     (map snd (filter (fun p : (Z * bool) * (Z * list value) => snd (fst p))
                 (combine (setitem (full true (map fst rs)) (map fst items)
                                   (map gK ws))
                          rs)))
   + DataCleaningService.count_true (map gF ws) <= List.length rs)%nat.
Proof.
  unfold full. rewrite setitem_map, boolean_index_map.
  pose proof kept_not_flagged as Hkept.
  rewrite (select_labels gF items ws same_length) in Hkept.
  destruct labelled_values as (E1 & _ & E3).
  rewrite E3, count_true_map.
  set (G := Spec.assigned (fun _ => true) (map fst items) (map gK ws)) in *.
  set (L := map fst (filter (fun q => gF (snd q)) (combine (map fst items) ws))) in *.
  replace (List.length (filter (fun q => gF (snd q)) (combine (map fst items) ws)))
    with (List.length L) by (unfold L; apply length_map).
  set (mem := fun r : Z * list value => existsb (Z.eqb (fst r)) L).
  assert (HndL : NoDup L).
  { unfold L. apply NoDup_map_fst_filter. rewrite E1. exact unique_labels. }
  assert (H1 : (List.length L <= List.length (filter mem rs))%nat).
  { rewrite <- (length_map fst (filter mem rs)).
    apply NoDup_incl_length; [exact HndL|].
    intros x Hx.
    assert (Hrow : In x (map fst rs)).
    { apply labels_of_rows. rewrite <- E1. unfold L in Hx.
      apply in_map_iff in Hx. destruct Hx as (q & <- & Hq).
      apply filter_In in Hq. apply in_map. tauto. }
    apply in_map_iff in Hrow. destruct Hrow as (r & <- & Hr).
    apply in_map. apply filter_In. split; [exact Hr|].
    unfold mem. apply existsb_exists. exists (fst r).
    split; [exact Hx | apply Z.eqb_refl]. }
  assert (H2 : (List.length (filter (fun r => G (fst r)) rs)
                <= List.length (filter (fun r => negb (mem r)) rs))%nat).
  { apply filter_length_mono. intros r _ HG. apply negb_true_iff.
    unfold mem. apply existsb_false_In. intros l Hl.
    destruct (fst r =? l)%Z eqn:E; [|reflexivity].
    apply Z.eqb_eq in E. subst l. exfalso. exact (Hkept (fst r) HG Hl). }
  pose proof (filter_length mem rs) as H3. lia.
Qed.

End MaskedRows.

Section StagedIndex.

Lemma drop_duplicates_rows_unique (rs : list (Z * list value)) :
  forall seen, NoDup (map fst rs) -> NoDup (map fst (drop_duplicates_rows seen rs)).
Proof.
  induction rs as [|r rs IH]; intros seen Hnd; simpl; [constructor|].
  inversion Hnd as [|? ? Hnotin Hnd']; subst.
  destruct (existsb (row_eqb (snd r)) seen); [apply IH; exact Hnd'|].
  simpl. constructor; [|apply IH; exact Hnd'].
  intros Hin. apply Hnotin. apply in_map_iff in Hin.
  destruct Hin as (x & E & Hx). apply drop_duplicates_rows_In in Hx.
  apply in_map_iff. exists x. tauto.
Qed.

Lemma handle_missing_values_unique (hm : string) (df : DataFrame) :
  NoDup (index df) -> NoDup (index (DataCleaningService.handle_missing_values hm df)).
Proof.
  intros Hnd. unfold DataCleaningService.handle_missing_values, index in *.
  assert (Hfill : forall agg, map fst (rows (fillna_numeric agg df)) = map fst (rows df)).
  { intros agg. unfold fillna_numeric. cbn [rows]. rewrite map_map. reflexivity. }
  destruct (String.eqb hm "drop").
  - unfold dropna. cbn [rows]. apply NoDup_map_fst_filter. exact Hnd.
  - destruct (String.eqb hm "mean"); [rewrite Hfill; exact Hnd|].
    destruct (String.eqb hm "median"); [rewrite Hfill; exact Hnd | exact Hnd].
Qed.

(** Stages 1 and 2 keep the index labels distinct. *)
Lemma staged_unique (hm : string) (rd : bool) (df : DataFrame) :
  NoDup (index df) ->
  NoDup (index (if rd
                then drop_duplicates (DataCleaningService.handle_missing_values hm df)
                else DataCleaningService.handle_missing_values hm df)).
Proof.
  intros Hnd. pose proof (handle_missing_values_unique hm df Hnd) as H1.
  destruct rd; [|exact H1].
  unfold index, drop_duplicates. cbn [rows]. apply drop_duplicates_rows_unique. exact H1.
Qed.

End StagedIndex.

(** ** Order statistics *)

Section OrderStatistics.

Lemma insert_sorted_sorted (x : Q) (l : list Q) :
  StronglySorted Qle l -> StronglySorted Qle (insert_sorted x l).
Proof.
  induction 1 as [|y l Hs IH Hall]; simpl.
  - constructor; constructor.
  - destruct (Qle_bool x y) eqn:E.
    + apply Qle_bool_iff in E. constructor; [constructor; assumption|].
      constructor; [exact E|].
      eapply Forall_impl; [|exact Hall]. intros a Ha. cbv beta in *. lra.
    + assert (Hyx : y <= x).
      { destruct (Qlt_le_dec y x) as [H | H]; [lra|].
        apply Qle_bool_iff in H. congruence. }
      constructor; [exact IH|].
      apply insert_sorted_Forall; assumption.
Qed.

Lemma sort_sorted (xs : list Q) : StronglySorted Qle (sort xs).
Proof.
  induction xs as [|x xs IH]; simpl; [constructor|].
  apply insert_sorted_sorted. exact IH.
Qed.

Lemma sorted_nth (l : list Q) :
  StronglySorted Qle l ->
  forall i k, (i <= k)%nat -> (k < List.length l)%nat -> nth i l 0 <= nth k l 0.
Proof.
  induction 1 as [|a l Hs IH Hall]; intros i k Hik Hk; [simpl in Hk; lia|].
  destruct k as [|k].
  - assert (i = 0%nat) by lia. subst i. simpl. lra.
  - destruct i as [|i]; simpl.
    + rewrite Forall_nth in Hall. apply Hall. simpl in Hk. lia.
    + apply IH; simpl in Hk; lia.
Qed.

Lemma insert_sorted_In (x a : Q) (l : list Q) :
  In a (insert_sorted x l) <-> a = x \/ In a l.
Proof.
  induction l as [|y l IH]; simpl; [intuition|].
  destruct (Qle_bool x y); simpl; [intuition|].
  rewrite IH. intuition.
Qed.

Lemma sort_In (a : Q) (xs : list Q) : In a (sort xs) <-> In a xs.
Proof.
  induction xs as [|x xs IH]; simpl; [tauto|].
  rewrite insert_sorted_In, IH. intuition.
Qed.

Lemma last_as_nth (l : list Q) (d : Q) : last l d = nth (List.length l - 1) l d.
Proof.
  induction l as [|a l IH]; [reflexivity|].
  destruct l as [|b l]; [reflexivity|].
  change (last (a :: b :: l) d) with (last (b :: l) d). rewrite IH.
  simpl. rewrite Nat.sub_0_r. reflexivity.
Qed.

(** Every value lies between the least and the greatest. *)
Lemma between_min_max (xs : list Q) (a : Q) :
  In a xs ->
  StatisticsService.Qmin_list xs <= a /\ a <= StatisticsService.Qmax_list xs.
Proof.
  intros Hin. apply sort_In in Hin.
  destruct (In_nth _ _ 0 Hin) as (i & Hi & <-).
  unfold StatisticsService.Qmin_list, StatisticsService.Qmax_list.
  rewrite last_as_nth. pose proof (sort_sorted xs) as Hs.
  split; apply (sorted_nth _ Hs); lia.
Qed.

Lemma extremes_In (xs : list Q) :
  xs <> [] ->
  In (StatisticsService.Qmin_list xs) xs /\ In (StatisticsService.Qmax_list xs) xs.
Proof.
  intros Hne.
  assert (Hn : (0 < List.length (sort xs))%nat).
  { rewrite sort_length. destruct xs; [congruence | simpl; lia]. }
  unfold StatisticsService.Qmin_list, StatisticsService.Qmax_list.
  rewrite last_as_nth. split; apply sort_In; apply nth_In; lia.
Qed.

End OrderStatistics.

Section NumericSummary.

Lemma numeric_statistics_data (series : Series) (st : StatisticsService.NumericSummary) :
  StatisticsService._numeric_statistics series = Ok (StatisticsService.Numeric st) ->
  exists xs,
    traverse as_number (map snd (s_items (dropna_series series))) = Some xs /\
    xs <> [] /\
    List.length xs = List.length (s_items (dropna_series series)) /\
    st = {| StatisticsService.n_count := List.length xs;
            StatisticsService.n_mean := mean xs;
            StatisticsService.n_median := median xs;
            StatisticsService.n_variance := StatisticsService.sample_variance xs;
            StatisticsService.n_min := StatisticsService.Qmin_list xs;
            StatisticsService.n_max := StatisticsService.Qmax_list xs;
            StatisticsService.n_q1 := quantile xs (1 # 4);
            StatisticsService.n_q3 := quantile xs (3 # 4);
            StatisticsService.n_iqr := fsub (quantile xs (3 # 4)) (quantile xs (1 # 4)) |}.
Proof.
  unfold StatisticsService._numeric_statistics.
  destruct (List.length (s_items (dropna_series series)) =? 0)%nat eqn:E0; [discriminate|].
  destruct (traverse as_number (map snd (s_items (dropna_series series)))) as [xs|] eqn:Etr;
    [|discriminate].
  intros H. injection H as <-. exists xs.
  pose proof (traverse_length _ _ _ Etr) as Hlen. rewrite length_map in Hlen.
  apply Nat.eqb_neq in E0.
  split; [reflexivity|]. split; [|split; [exact Hlen | reflexivity]].
  intros ->. cbn [List.length] in Hlen. lia.
Qed.

(** The numbers read off a list of cells are the numbers in its cells. *)
Lemma traverse_numbers_In (vals : list value) :
  forall xs x,
    traverse as_number vals = Some xs -> (In x xs <-> In (Num x) vals).
Proof.
  induction vals as [|v vals IH]; intros xs x; simpl.
  - intros H; injection H as <-. tauto.
  - destruct (as_number v) as [y|] eqn:Ev; [|discriminate].
    destruct (traverse as_number vals) as [ys|]; [|discriminate].
    intros H; injection H as <-. simpl. rewrite (IH ys x eq_refl).
    destruct v; try discriminate. injection Ev as ->.
    split; intros [H | H]; try tauto; left; congruence.
Qed.

Lemma dropna_series_number (s : Series) (i : Z) (x : Q) :
  In (i, Num x) (s_items (dropna_series s)) <-> In (i, Num x) (s_items s).
Proof.
  unfold dropna_series. cbn [s_items]. rewrite filter_In. cbn [snd isnull negb]. tauto.
Qed.

End NumericSummary.

(** X14.  In every numeric summary of a floating column, or of an integer
    column whose values are at most 2^53 in absolute value (so that the
    conversion to [float] changes none of them), the count is the number
    of non-missing cells and is positive, the minimum and the maximum are
    values of the column and every number of the column lies between them,
    and the variance is NaN when the column has a single value. *)
Theorem numeric_statistics_extremes :
  forall series st,
    StatisticsService._numeric_statistics series = Ok (StatisticsService.Numeric st) ->
    (s_dtype series = float64
     \/ forall i x, In (i, Num x) (s_items series) ->
                    - inject_Z (2 ^ 53) <= x /\ x <= inject_Z (2 ^ 53)) ->
    StatisticsService.n_count st = List.length (s_items (dropna_series series)) /\
    (0 < StatisticsService.n_count st)%nat /\
    (exists i, In (i, Num (StatisticsService.n_min st)) (s_items series)) /\
    (exists i, In (i, Num (StatisticsService.n_max st)) (s_items series)) /\
    (forall i x, In (i, Num x) (s_items series) ->
                 StatisticsService.n_min st <= x /\ x <= StatisticsService.n_max st) /\
    StatisticsService.n_min st <= StatisticsService.n_max st /\
    (StatisticsService.n_count st = 1%nat -> StatisticsService.n_variance st = nan).
Proof.
  intros series st H _.
  destruct (numeric_statistics_data series st H) as (xs & Htr & Hne & Hlen & ->).
  cbn [StatisticsService.n_count StatisticsService.n_variance
       StatisticsService.n_min StatisticsService.n_max].
  assert (Hpos : (0 < List.length xs)%nat) by (destruct xs; [congruence | simpl; lia]).
  assert (Hcell : forall x, In x xs -> exists i, In (i, Num x) (s_items series)).
  { intros x Hx. apply (traverse_numbers_In _ xs x Htr) in Hx.
    apply in_map_iff in Hx. destruct Hx as ([i v] & E & Hin). cbn [snd] in E. subst v.
    exists i. apply dropna_series_number. exact Hin. }
  assert (Hnum : forall i x, In (i, Num x) (s_items series) -> In x xs).
  { intros i x Hin. apply (traverse_numbers_In _ xs x Htr).
    apply dropna_series_number in Hin.
    apply in_map_iff. exists (i, Num x). split; [reflexivity | exact Hin]. }
  destruct (extremes_In xs Hne) as [Hmin Hmax].
  split; [exact Hlen|]. split; [exact Hpos|].
  split; [apply Hcell; exact Hmin|]. split; [apply Hcell; exact Hmax|].
  split; [intros i x Hin; apply between_min_max; apply (Hnum i x Hin)|].
  split.
  - destruct (between_min_max xs _ Hmin) as [_ Hle]. exact Hle.
  - intros E1. unfold StatisticsService.sample_variance. rewrite E1. reflexivity.
Qed.

Lemma numeric_statistics_extremes_witness :
  StatisticsService.n_count Examples.spec_summary
  = List.length (s_items (dropna_series Examples.spec_series)) /\
  (0 < StatisticsService.n_count Examples.spec_summary)%nat /\
  (exists i, In (i, Num (StatisticsService.n_min Examples.spec_summary))
               (s_items Examples.spec_series)) /\
  (exists i, In (i, Num (StatisticsService.n_max Examples.spec_summary))
               (s_items Examples.spec_series)) /\
  (forall i x, In (i, Num x) (s_items Examples.spec_series) ->
               StatisticsService.n_min Examples.spec_summary <= x
               /\ x <= StatisticsService.n_max Examples.spec_summary) /\
  StatisticsService.n_min Examples.spec_summary
  <= StatisticsService.n_max Examples.spec_summary /\
  (StatisticsService.n_count Examples.spec_summary = 1%nat ->
   StatisticsService.n_variance Examples.spec_summary = nan).
Proof.
  apply (numeric_statistics_extremes Examples.spec_series Examples.spec_summary).
  - reflexivity.
  - left. reflexivity.
Defined.

(** ** The categorical summary *)

Section ValueCounts.

Lemma add_count_total (v : value) (acc : list (value * nat)) :
  list_sum (map snd (StatisticsService.add_count v acc)) = S (list_sum (map snd acc)).
Proof.
  induction acc as [|[w k] acc IH]; simpl; [reflexivity|].
  destruct (value_eqb w v); simpl; [reflexivity | rewrite IH; lia].
Qed.

Lemma add_count_length (v : value) (acc : list (value * nat)) :
  (List.length (StatisticsService.add_count v acc) <= S (List.length acc))%nat.
Proof.
  induction acc as [|[w k] acc IH]; simpl; [lia|].
  destruct (value_eqb w v); simpl; lia.
Qed.

Lemma add_count_nonempty (v : value) (acc : list (value * nat)) :
  StatisticsService.add_count v acc <> [].
Proof. destruct acc as [|[w k] acc]; simpl; [|destruct (value_eqb w v)]; discriminate. Qed.

Lemma add_count_entries (P : value -> Prop) (v : value) (acc : list (value * nat)) :
  P v ->
  Forall (fun e => P (fst e) /\ (1 <= snd e)%nat) acc ->
  Forall (fun e => P (fst e) /\ (1 <= snd e)%nat) (StatisticsService.add_count v acc).
Proof.
  intros Hv. induction 1 as [|[w k] acc [Hw Hk] Hacc IH]; simpl.
  - constructor; [split; [exact Hv | simpl; lia] | constructor].
  - simpl in Hw, Hk.
    destruct (value_eqb w v); constructor; simpl; try assumption; try (split; [exact Hw | lia]).
Qed.

(** The counting pass over the values. *)
Lemma counted_facts (P : value -> Prop) (vs : list value) :
  forall acc,
    Forall P vs ->
    Forall (fun e => P (fst e) /\ (1 <= snd e)%nat) acc ->
    let counted := fold_left (fun a v => StatisticsService.add_count v a) vs acc in
    list_sum (map snd counted) = (list_sum (map snd acc) + List.length vs)%nat /\
    (List.length counted <= List.length acc + List.length vs)%nat /\
    Forall (fun e => P (fst e) /\ (1 <= snd e)%nat) counted /\
    (vs <> [] -> counted <> []).
Proof.
  induction vs as [|v vs IH]; intros acc Hvs Hacc; simpl.
  - repeat split; try lia; [exact Hacc | congruence].
  - inversion Hvs as [|? ? Hv Hvs']; subst.
    destruct (IH (StatisticsService.add_count v acc) Hvs'
                 (add_count_entries P v acc Hv Hacc)) as (Ht & Hl & Hf & Hne).
    cbv zeta in *. rewrite add_count_total in Ht.
    pose proof (add_count_length v acc).
    repeat split; try lia; [exact Hf|].
    intros _. destruct vs as [|v' vs'].
    + simpl. apply add_count_nonempty.
    + apply Hne. discriminate.
Qed.

Lemma insert_by_count_Forall (P : value * nat -> Prop) (e : value * nat)
      (l : list (value * nat)) :
  P e -> Forall P l -> Forall P (StatisticsService.insert_by_count e l).
Proof.
  intros He. induction 1 as [|f l Hf Hl IH]; simpl.
  - constructor; [exact He | constructor].
  - destruct (snd f <? snd e)%nat; repeat (constructor; try assumption).
Qed.

Lemma insert_by_count_sorted (e : value * nat) (l : list (value * nat)) :
  StronglySorted Spec.by_count l ->
  StronglySorted Spec.by_count (StatisticsService.insert_by_count e l).
Proof.
  induction 1 as [|f l Hs IH Hall]; simpl.
  - constructor; constructor.
  - destruct (snd f <? snd e)%nat eqn:E.
    + apply Nat.ltb_lt in E. constructor; [constructor; assumption|].
      constructor; [unfold Spec.by_count; lia|].
      eapply Forall_impl; [|exact Hall]. unfold Spec.by_count. intros a Ha. lia.
    + apply Nat.ltb_ge in E. constructor; [exact IH|].
      apply insert_by_count_Forall; [unfold Spec.by_count; lia | exact Hall].
Qed.

Lemma insert_by_count_total (e : value * nat) (l : list (value * nat)) :
  list_sum (map snd (StatisticsService.insert_by_count e l))
  = (snd e + list_sum (map snd l))%nat.
Proof.
  induction l as [|f l IH]; simpl; [reflexivity|].
  destruct (snd f <? snd e)%nat; simpl; [reflexivity | rewrite IH; lia].
Qed.

Lemma insert_by_count_length (e : value * nat) (l : list (value * nat)) :
  List.length (StatisticsService.insert_by_count e l) = S (List.length l).
Proof.
  induction l as [|f l IH]; simpl; [reflexivity|].
  destruct (snd f <? snd e)%nat; simpl; [reflexivity | rewrite IH; reflexivity].
Qed.

(** The ordering pass over the counted entries. *)
Lemma ordered_facts (P : value * nat -> Prop) (counted : list (value * nat)) :
  forall acc,
    Forall P counted -> Forall P acc -> StronglySorted Spec.by_count acc ->
    let table := fold_left (fun a e => StatisticsService.insert_by_count e a) counted acc in
    list_sum (map snd table)
    = (list_sum (map snd acc) + list_sum (map snd counted))%nat /\
    List.length table = (List.length acc + List.length counted)%nat /\
    Forall P table /\
    StronglySorted Spec.by_count table.
Proof.
  induction counted as [|e counted IH]; intros acc Hc Hacc Hs; simpl.
  - repeat split; try lia; assumption.
  - inversion Hc as [|? ? He Hc']; subst.
    destruct (IH (StatisticsService.insert_by_count e acc) Hc'
                 (insert_by_count_Forall P e acc He Hacc)
                 (insert_by_count_sorted e acc Hs)) as (Ht & Hl & Hf & Hso).
    cbv zeta in *. rewrite insert_by_count_total in Ht.
    rewrite insert_by_count_length in Hl.
    repeat split; try lia; assumption.
Qed.

(** What [value_counts] returns on values without missing ones. *)
Lemma value_counts_facts (P : value -> Prop) (vs : list value) :
  Forall P vs ->
  let table := StatisticsService.value_counts_of vs in
  list_sum (map snd table) = List.length vs /\
  (List.length table <= List.length vs)%nat /\
  Forall (fun e => P (fst e) /\ (1 <= snd e)%nat) table /\
  StronglySorted Spec.by_count table /\
  (vs <> [] -> table <> []).
Proof.
  intros Hvs. unfold StatisticsService.value_counts_of.
  destruct (counted_facts P vs [] Hvs (Forall_nil _)) as (Ht & Hl & Hf & Hne).
  cbv zeta in *.
  set (counted := fold_left (fun a v => StatisticsService.add_count v a) vs []) in *.
  destruct (ordered_facts (fun e => P (fst e) /\ (1 <= snd e)%nat) counted []
              Hf (Forall_nil _) (SSorted_nil _)) as (Ht' & Hl' & Hf' & Hs').
  cbv zeta in *. simpl in Ht, Hl, Ht', Hl'.
  repeat split; try lia; try assumption.
  intros Hn Htab. rewrite Htab in Hl'. simpl in Hl'.
  apply (Hne Hn). destruct counted; [reflexivity | discriminate].
Qed.

Lemma mode0_In (counts : list (value * nat)) (v : value) :
  StatisticsService.mode0 counts = Some v -> In v (map fst counts).
Proof.
  destruct counts as [|[w k] rest]; simpl; [discriminate|].
  intros H. injection H as <-.
  assert (G : forall l best,
             In (fold_left
                   (fun best e =>
                      if (snd e =? k)%nat && negb (StatisticsService.value_leb best (fst e))
                      then fst e else best) l best)
                (best :: map fst l)).
  { induction l as [|e l IH]; intros best; simpl; [left; reflexivity|].
    destruct ((snd e =? k)%nat && negb (StatisticsService.value_leb best (fst e))).
    - right. apply IH.
    - destruct (IH best) as [H | H]; [left; exact H | right; right; exact H]. }
  apply G.
Qed.

End ValueCounts.

Section TopOfTable.

Lemma Forall_firstn_keep {A : Type} (P : A -> Prop) (n : nat) (l : list A) :
  Forall P l -> Forall P (firstn n l).
Proof.
  intros H. revert n. induction H as [|a l Ha Hl IH]; intros [|n]; simpl;
    constructor; auto.
Qed.

Lemma StronglySorted_firstn {A : Type} (R : A -> A -> Prop) (n : nat) (l : list A) :
  StronglySorted R l -> StronglySorted R (firstn n l).
Proof.
  intros H. revert n. induction H as [|a l Hs IH Hall]; intros [|n]; simpl;
    try constructor; auto.
  apply Forall_firstn_keep. exact Hall.
Qed.

(** The first count of a sorted table bounds the others and is itself
    bounded by the total. *)
Lemma head_count_bounds (table : list (value * nat)) :
  StronglySorted Spec.by_count table ->
  let top := match table with (_, k) :: _ => k | [] => O end in
  Forall (fun e => (snd e <= top)%nat) table /\
  (top <= list_sum (map snd table))%nat.
Proof.
  intros Hs. destruct table as [|[v k] rest]; simpl.
  - split; [constructor | lia].
  - inversion Hs as [|? ? _ Hall]; subst. split; [|lia].
    constructor; [simpl; lia|]. exact Hall.
Qed.

End TopOfTable.

(** X15.  The categorical summary of any series: the count is the length
    of the series; the number of unique values is at most the number of
    non-missing cells; the frequency table has at most 10 entries, each a
    non-missing value of the series with a count between 1 and
    [mode_frequency], most frequent first, and when there are at most 10
    unique values its counts add up to the number of non-missing cells.
    Without non-missing cells there is no mode and the frequency is 0;
    otherwise the mode is a value of the series and its frequency is at
    least 1. *)
Theorem categorical_statistics_invariants :
  forall series,
    let c := StatisticsService._categorical_statistics series in
    let present := filter (fun v => negb (isnull v)) (map snd (s_items series)) in
    StatisticsService.c_count c = List.length (s_items series) /\
    (StatisticsService.unique_values c <= List.length present)%nat /\
    (List.length present <= StatisticsService.c_count c)%nat /\
    List.length (StatisticsService.value_counts c)
    = Nat.min 10 (StatisticsService.unique_values c) /\
    (StatisticsService.mode_frequency c <= List.length present)%nat /\
    Forall (fun e => In (fst e) present /\
                     (1 <= snd e)%nat /\
                     (snd e <= StatisticsService.mode_frequency c)%nat)
           (StatisticsService.value_counts c) /\
    StronglySorted Spec.by_count (StatisticsService.value_counts c) /\
    ((StatisticsService.unique_values c <= 10)%nat ->
     list_sum (map snd (StatisticsService.value_counts c)) = List.length present) /\
    (present = [] ->
     StatisticsService.most_common c = None /\
     StatisticsService.mode_frequency c = 0%nat /\
     StatisticsService.unique_values c = 0%nat /\
     StatisticsService.value_counts c = []) /\
    (present <> [] ->
     exists v, StatisticsService.most_common c = Some v /\ In v present /\
               (1 <= StatisticsService.mode_frequency c)%nat).
Proof.
  intros series c present. subst c.
  unfold StatisticsService._categorical_statistics.
  cbn [StatisticsService.c_count StatisticsService.unique_values
       StatisticsService.most_common StatisticsService.value_counts
       StatisticsService.mode_frequency].
  fold present.
  assert (Hall : Forall (fun v => In v present) present)
    by (apply Forall_forall; auto).
  destruct (value_counts_facts (fun v => In v present) present Hall)
    as (Ht & Hl & Hf & Hs & Hne).
  cbv zeta in Ht, Hl, Hf, Hs, Hne.
  set (table := StatisticsService.value_counts_of present) in *.
  destruct (head_count_bounds table Hs) as (Htop & Htot). cbv zeta in Htop, Htot.
  set (top := match table with (_, k) :: _ => k | [] => O end) in *.
  split; [apply length_map|].
  split; [exact Hl|].
  split; [apply filter_length_le|].
  split; [apply length_firstn|].
  split; [lia|].
  split.
  { apply Forall_firstn_keep.
    rewrite Forall_forall in Hf, Htop. apply Forall_forall. intros e He.
    destruct (Hf e He) as [H1 H2]. pose proof (Htop e He). tauto. }
  split; [apply StronglySorted_firstn; exact Hs|].
  split; [intros H10; rewrite firstn_all2 by exact H10; exact Ht|].
  split.
  - intros Hnil. unfold top, table. rewrite Hnil. repeat split.
  - intros Hn. specialize (Hne Hn).
    destruct table as [|[v k] rest] eqn:Et; [congruence|].
    destruct (StatisticsService.mode0 ((v, k) :: rest)) as [m|] eqn:Em;
      [|simpl in Em; discriminate].
    exists m. split; [reflexivity|].
    apply mode0_In in Em. apply in_map_iff in Em. destruct Em as (e & <- & He).
    rewrite Forall_forall in Hf. destruct (Hf e He) as [Hin _].
    split; [exact Hin|].
    destruct (Hf (v, k) (or_introl eq_refl)) as [_ Hk]. exact Hk.
Qed.

Lemma categorical_statistics_invariants_witness :
  let c := StatisticsService._categorical_statistics
             (mkSeries object_ [(0%Z, Str "a"); (1%Z, Str "b"); (3%Z, Str "b")]) in
  StatisticsService.most_common c = Some (Str "b") /\
  StatisticsService.mode_frequency c = 2%nat /\
  StatisticsService.value_counts c = [(Str "b", 2%nat); (Str "a", 1%nat)] /\
  exists v, StatisticsService.most_common c = Some v /\
            In v [Str "a"; Str "b"; Str "b"] /\
            (1 <= StatisticsService.mode_frequency c)%nat.
Proof.
  cbv zeta. split; [reflexivity|]. split; [reflexivity|]. split; [reflexivity|].
  apply (categorical_statistics_invariants
           (mkSeries object_ [(0%Z, Str "a"); (1%Z, Str "b"); (3%Z, Str "b")])).
  discriminate.
Defined.

(** ** [calculate_statistics] over all columns *)

Section AllColumns.

Lemma get_loc_In (c : string) (t : dtype) (cols : list (string * dtype)) :
  In (c, t) cols -> exists p, get_loc c cols = Some p.
Proof.
  induction cols as [|[n t0] cols IH]; intros Hin; [destruct Hin|].
  simpl. destruct (String.eqb n c) eqn:E; [eexists; reflexivity|].
  destruct Hin as [H | H].
  - injection H as -> _. rewrite String.eqb_refl in E. discriminate.
  - destruct (IH H) as ([j t'] & ->). eexists. reflexivity.
Qed.

Lemma getitem_In (df : DataFrame) (c : string) (t : dtype) :
  In (c, t) (columns df) -> exists s, getitem df c = Ok s.
Proof.
  intros Hin. unfold getitem.
  destruct (get_loc_In c t (columns df) Hin) as ([j t'] & ->).
  eexists. reflexivity.
Qed.





End AllColumns.



(** ** [get_column_info] *)

Section ColumnInfo.

Lemma getitem_length (df : DataFrame) (c : string) (s : Series) :
  getitem df c = Ok s -> List.length (s_items s) = len df.
Proof.
  unfold getitem. destruct (get_loc c (columns df)) as [[j t]|]; [|discriminate].
  intros H; injection H as <-. simpl. apply length_map.
Qed.

Lemma dropna_series_values (s : Series) :
  map snd (s_items (dropna_series s))
  = filter (fun v => negb (isnull v)) (map snd (s_items s)).
Proof.
  unfold dropna_series. cbn [s_items]. rewrite filter_map_swap. reflexivity.
Qed.

Lemma column_type_not_boolean (t : dtype) :
  FileHandler.column_type t <> FileHandler.boolean.
Proof. destruct t; discriminate. Qed.

(** The facts of one entry. *)
Lemma column_info_facts (s : Series) :
  let i := FileHandler.column_info s in
  (FileHandler.non_null_count i + FileHandler.null_count i
   = List.length (s_items s))%nat /\
  (FileHandler.unique_count i <= FileHandler.non_null_count i)%nat /\
  List.length (FileHandler.sample_values i) = Nat.min 3 (FileHandler.non_null_count i) /\
  Forall (fun v => v <> Null) (FileHandler.sample_values i) /\
  FileHandler.type i <> FileHandler.boolean /\
  (FileHandler.type i = FileHandler.numeric
   <-> is_numeric_dtype (FileHandler.dtype_of i) = true).
Proof.
  cbv zeta. unfold FileHandler.column_info.
  cbn [FileHandler.non_null_count FileHandler.null_count FileHandler.unique_count
       FileHandler.sample_values FileHandler.type FileHandler.dtype_of].
  set (vs := map snd (s_items s)).
  split.
  { rewrite Nat.add_comm, <- (length_map snd (s_items s)). fold vs.
    apply (filter_length isnull vs). }
  split.
  { destruct (value_counts_facts (fun _ => True)
                (filter (fun v => negb (isnull v)) vs)) as (_ & Hl & _).
    - apply Forall_forall. auto.
    - exact Hl. }
  split.
  { rewrite length_firstn, dropna_series_values. reflexivity. }
  split.
  { apply Forall_firstn_keep. rewrite dropna_series_values.
    apply Forall_forall. intros v Hv. apply filter_In in Hv.
    destruct Hv as [_ Hv]. intros ->. discriminate. }
  split; [apply column_type_not_boolean|].
  unfold FileHandler.column_type.
  destruct (is_numeric_dtype (s_dtype s)); [tauto|].
  split; [|discriminate].
  destruct (is_datetime64_any_dtype (s_dtype s)); [discriminate|].
  destruct (is_bool_dtype (s_dtype s)); discriminate.
Qed.

Lemma column_infos_facts (df : DataFrame) (cols : list (string * dtype)) :
  (forall c t, In (c, t) cols -> In (c, t) (columns df)) ->
  exists infos,
    FileHandler.column_infos df cols = Ok infos /\
    map fst infos = map fst cols /\
    Forall (fun e => exists s, getitem df (fst e) = Ok s
                               /\ snd e = FileHandler.column_info s) infos.
Proof.
  induction cols as [|[col t] cols IH]; intros Hsub.
  - exists []. repeat split. constructor.
  - destruct (getitem_In df col t (Hsub col t (or_introl eq_refl))) as (s & Es).
    destruct IH as (rest & Er & Hk & Hf).
    { intros c t' Hin. apply Hsub. right. exact Hin. }
    exists ((col, FileHandler.column_info s) :: rest).
    simpl. rewrite Es. cbn [bind]. rewrite Er. cbn [bind].
    repeat split; [rewrite Hk; reflexivity|].
    constructor; [|exact Hf]. exists s. split; [exact Es | reflexivity].
Qed.

End ColumnInfo.

(** X17.  [get_column_info] always answers, with one entry per column in
    the order of the columns.  In every entry the non-null and null counts
    add up to the number of rows, the unique count is at most the non-null
    count, there are at most 3 sample values (as many as there are
    non-null cells when fewer) and none is missing, and the type is never
    "boolean": it is "numeric" exactly when [is_numeric_dtype] holds of the
    dtype, which includes the boolean dtype. *)
Theorem get_column_info_entries :
  forall df,
    exists infos,
      FileHandler.get_column_info df = Ok infos /\
      map fst infos = map fst (columns df) /\
      Forall (fun e =>
                let i := snd e in
                (FileHandler.non_null_count i + FileHandler.null_count i = len df)%nat /\
                (FileHandler.unique_count i <= FileHandler.non_null_count i)%nat /\
                List.length (FileHandler.sample_values i)
                = Nat.min 3 (FileHandler.non_null_count i) /\
                Forall (fun v => v <> Null) (FileHandler.sample_values i) /\
                FileHandler.type i <> FileHandler.boolean /\
                (FileHandler.type i = FileHandler.numeric
                 <-> is_numeric_dtype (FileHandler.dtype_of i) = true))
             infos.
Proof.
  intros df. unfold FileHandler.get_column_info.
  destruct (column_infos_facts df (columns df)) as (infos & E & Hk & Hf); [auto|].
  exists infos. split; [exact E|]. split; [exact Hk|].
  eapply Forall_impl; [|exact Hf]. intros [c i] (s & Es & Ei). cbn [fst snd] in *.
  subst i. pose proof (column_info_facts s) as H. cbv zeta in H |- *.
  rewrite (getitem_length df c s Es) in H. exact H.
Qed.

(** ** The shape of an outlier report *)

Section OutlierReport.

Lemma zscore_length (data : Series) (zs : list zval) :
  zscore data = Ok zs -> List.length zs = List.length (s_items data).
Proof.
  unfold zscore. destruct (s_items data) as [|p items] eqn:E.
  - intros H; injection H as <-. reflexivity.
  - destruct (traverse as_float (map snd (p :: items))) as [xs|] eqn:Et; [|discriminate].
    intros H; injection H as <-.
    pose proof (traverse_length _ _ _ Et) as Hl. rewrite length_map in Hl.
    unfold zscore_values. destruct xs as [|x xs]; [exact Hl|].
    rewrite length_map. exact Hl.
Qed.

(** What both branches of [detect_outliers] build from their mask. *)
Lemma detect_outliers_mask (df : DataFrame) (c m : string)
      (info : DataCleaningService.OutlierInfo) :
  DataCleaningService.detect_outliers df c m = Ok info ->
  exists s mask,
    getitem df c = Ok s /\
    List.length mask = List.length (s_items (dropna_series s)) /\
    DataCleaningService.total_outliers info = DataCleaningService.count_true mask /\
    DataCleaningService.outlier_percentage info
    = DataCleaningService.percentage mask (dropna_series s) /\
    DataCleaningService.outlier_indices info
    = firstn 100 (map fst (DataCleaningService.select (dropna_series s) mask)) /\
    DataCleaningService.outlier_values info
    = firstn 10 (map snd (DataCleaningService.select (dropna_series s) mask)) /\
    (String.eqb m "zscore" = true ->
     DataCleaningService.threshold info = Some 3%Z /\
     DataCleaningService.lower_bound info = None /\
     DataCleaningService.upper_bound info = None) /\
    (String.eqb m "zscore" = false ->
     DataCleaningService.threshold info = None /\
     exists lo hi, DataCleaningService.lower_bound info = Some lo /\
                   DataCleaningService.upper_bound info = Some hi).
Proof.
  unfold DataCleaningService.detect_outliers.
  destruct (getitem df c) as [s|e]; cbn [bind]; [|discriminate].
  destruct (String.eqb m "zscore") eqn:Ez.
  - destruct (zscore (dropna_series s)) as [zs|e] eqn:Ezs; cbn [bind]; [|discriminate].
    cbv zeta. intros H; injection H as <-.
    exists s. eexists. split; [reflexivity|].
    split; [rewrite length_map; apply (zscore_length _ _ Ezs)|].
    cbn. repeat split; discriminate.
  - destruct (String.eqb m "iqr"); [|discriminate].
    destruct (series_quantile (dropna_series s) (1 # 4)) as [q1|e]; cbn [bind];
      [|discriminate].
    destruct (series_quantile (dropna_series s) (3 # 4)) as [q3|e]; cbn [bind];
      [|discriminate].
    destruct (DataCleaningService.iqr_bounds q1 q3) as [lower upper].
    intros H; injection H as <-.
    exists s. eexists. split; [reflexivity|].
    split; [apply length_map|].
    cbn [DataCleaningService.total_outliers DataCleaningService.outlier_percentage
         DataCleaningService.outlier_indices DataCleaningService.outlier_values
         DataCleaningService.threshold DataCleaningService.lower_bound
         DataCleaningService.upper_bound].
    repeat split; try discriminate. eauto.
Qed.

Lemma select_length {A : Type} (items : list A) :
  forall mask,
    List.length mask = List.length items ->
    List.length (filter snd (combine items mask)) = DataCleaningService.count_true mask.
Proof.
  unfold DataCleaningService.count_true.
  induction items as [|a items IH]; intros [|b mask] Hl; simpl in *;
    try reflexivity; try discriminate.
  destruct b; simpl; rewrite IH by lia; reflexivity.
Qed.

Lemma count_true_le (mask : list bool) :
  (DataCleaningService.count_true mask <= List.length mask)%nat.
Proof. apply filter_length_le. Qed.

Lemma select_In (data : Series) (mask : list bool) (p : Z * value) :
  In p (DataCleaningService.select data mask) -> In p (s_items data).
Proof.
  unfold DataCleaningService.select. rewrite in_map_iff.
  intros ([q b] & E & Hin). simpl in E. subst q.
  apply filter_In in Hin. destruct Hin as [Hin _]. eapply in_combine_l, Hin.
Qed.

Lemma In_firstn_In {A : Type} (n : nat) (l : list A) (x : A) :
  In x (firstn n l) -> In x l.
Proof.
  revert n. induction l as [|a l IH]; intros [|n]; simpl; try tauto.
  intros [H | H]; [left; exact H | right; eapply IH, H].
Qed.

Lemma dropna_series_In (df : DataFrame) (c : string) (s : Series) (p : Z * value) :
  getitem df c = Ok s -> In p (s_items (dropna_series s)) ->
  In (fst p) (index df) /\ snd p <> Null.
Proof.
  unfold getitem. destruct (get_loc c (columns df)) as [[j t]|]; [|discriminate].
  intros H; injection H as <-. unfold dropna_series. cbn [s_items].
  intros Hin. apply filter_In in Hin. destruct Hin as [Hin Hnn].
  apply in_map_iff in Hin. destruct Hin as (r & <- & Hr). cbn [fst snd] in *.
  split; [unfold index; apply in_map; exact Hr|].
  intros E. rewrite E in Hnn. discriminate.
Qed.

End OutlierReport.

(** X18.  Every report of [detect_outliers]: the number of outliers is at
    most the number of non-missing cells of the column; the index list has
    [min 100 total] entries, all of them index labels of the frame; the
    value list has [min 10 total] entries, none missing; when the column
    has a non-missing cell the percentage is a finite [p] in [0, 100] with
    [p * cells = 100 * total]; the z-score report carries the threshold 3
    and no bounds, the IQR report both bounds and no threshold. *)
Theorem detect_outliers_report :
  forall df c m info,
    DataCleaningService.detect_outliers df c m = Ok info ->
    exists s,
      getitem df c = Ok s /\
      let cells := List.length (s_items (dropna_series s)) in
      let total := DataCleaningService.total_outliers info in
      (total <= cells)%nat /\ (cells <= len df)%nat /\
      List.length (DataCleaningService.outlier_indices info) = Nat.min 100 total /\
      (forall i, In i (DataCleaningService.outlier_indices info) -> In i (index df)) /\
      List.length (DataCleaningService.outlier_values info) = Nat.min 10 total /\
      Forall (fun v => v <> Null) (DataCleaningService.outlier_values info) /\
      ((0 < cells)%nat ->
       exists p, DataCleaningService.outlier_percentage info = Finite p /\
                 0 <= p /\ p <= 100 /\
                 p * inject_Z (Z.of_nat cells) == 100 * inject_Z (Z.of_nat total)) /\
      (m = "zscore"%string ->
       DataCleaningService.threshold info = Some 3%Z /\
       DataCleaningService.lower_bound info = None /\
       DataCleaningService.upper_bound info = None) /\
      (m = "iqr"%string ->
       DataCleaningService.threshold info = None /\
       exists lo hi, DataCleaningService.lower_bound info = Some lo /\
                     DataCleaningService.upper_bound info = Some hi).
Proof.
  intros df c m info H.
  destruct (detect_outliers_mask df c m info H)
    as (s & mask & Hget & Hlen & Htot & Hpct & Hidx & Hval & Hz & Hi).
  exists s. split; [exact Hget|]. cbv zeta.
  set (data := dropna_series s) in *.
  assert (Hsel : List.length (DataCleaningService.select data mask)
                 = DataCleaningService.count_true mask).
  { unfold DataCleaningService.select. rewrite length_map.
    apply select_length. exact Hlen. }
  pose proof (count_true_le mask) as Hle.
  split; [lia|].
  split.
  { rewrite <- (getitem_length df c s Hget). unfold data, dropna_series.
    cbn [s_items]. apply filter_length_le. }
  split; [rewrite Hidx, length_firstn, length_map, Hsel, Htot; reflexivity|].
  split.
  { intros i Hin. rewrite Hidx in Hin. apply In_firstn_In in Hin.
    apply in_map_iff in Hin. destruct Hin as (p & <- & Hp).
    apply select_In in Hp. apply (dropna_series_In df c s p Hget Hp). }
  split; [rewrite Hval, length_firstn, length_map, Hsel, Htot; reflexivity|].
  split.
  { rewrite Hval. apply Forall_firstn_keep. apply Forall_forall. intros v Hv.
    apply in_map_iff in Hv. destruct Hv as (p & <- & Hp).
    apply select_In in Hp. apply (dropna_series_In df c s p Hget Hp). }
  split.
  { intros Hpos. rewrite Hpct, Htot.
    unfold DataCleaningService.percentage, true_divide. fold data.
    remember (DataCleaningService.count_true mask) as k eqn:Ek. clear Ek.
    remember (List.length (s_items data)) as n eqn:En. clear En.
    destruct (Z.of_nat n =? 0)%Z eqn:E0; [apply Z.eqb_eq in E0; lia|].
    cbn [fmul]. eexists. split; [reflexivity|].
    set (a := inject_Z (Z.of_nat k)). set (b := inject_Z (Z.of_nat n)).
    assert (Ha : 0 <= a).
    { unfold a. change 0 with (inject_Z 0). rewrite <- Zle_Qle. lia. }
    assert (Hab : a <= b) by (unfold a, b; rewrite <- Zle_Qle; lia).
    assert (Hb : 0 < b).
    { unfold b. change 0 with (inject_Z 0). rewrite <- Zlt_Qlt. lia. }
    assert (Hq : 0 <= a / b /\ a / b <= 1).
    { split; [apply Qle_shift_div_l | apply Qle_shift_div_r]; lra. }
    split; [lra|]. split; [lra|]. field. lra. }
  split.
  - intros ->. apply Hz. reflexivity.
  - intros ->. apply Hi. reflexivity.
Qed.

Lemma detect_outliers_report_witness :
  exists info s,
    DataCleaningService.detect_outliers Examples.spec_column "x" "iqr" = Ok info /\
    getitem Examples.spec_column "x" = Ok s /\
    (DataCleaningService.total_outliers info
     <= List.length (s_items (dropna_series s)))%nat /\
    List.length (DataCleaningService.outlier_indices info)
    = Nat.min 100 (DataCleaningService.total_outliers info).
Proof.
  eexists.
  assert (E : DataCleaningService.detect_outliers Examples.spec_column "x" "iqr"
              = Ok _) by (vm_compute; reflexivity).
  destruct (detect_outliers_report Examples.spec_column "x"%string "iqr"%string _ E)
    as (s & Hget & Htot & _ & Hidx & _).
  exists s. repeat split; assumption.
Defined.

(** X19.  With a unique index, outlier removal never removes a row whose
    target cell is missing: every such row of the frame that reaches stage
    3 is in the result of [clean_dataset], whatever the method. *)
Theorem clean_dataset_keeps_null_targets :
  forall df hm (rd : bool) c m cleaned j t r,
    let staged :=
      if rd
      then drop_duplicates (DataCleaningService.handle_missing_values hm df)
      else DataCleaningService.handle_missing_values hm df in
    NoDup (index df) ->
    c <> ""%string ->
    get_loc c (columns df) = Some (j, t) ->
    DataCleaningService.clean_dataset df hm rd true (Some c) m = Ok cleaned ->
    In r (rows staged) ->
    nth j (snd r) Null = Null ->
    In r (rows cleaned).
Proof.
  intros df hm rd c m cleaned j t r staged Hnd Hc Hloc H Hr Hnull.
  unfold DataCleaningService.clean_dataset in H.
  rewrite (truthy_nonempty c Hc) in H. cbn [andb] in H. fold staged in H.
  apply (remove_outlier_rows_keeps_null_rows staged c m cleaned j t r).
  - apply staged_unique. exact Hnd.
  - unfold staged. rewrite stage2_columns. exact Hloc.
  - exact H.
  - exact Hr.
  - exact Hnull.
Qed.

Lemma clean_dataset_keeps_null_targets_witness :
  In (1%Z, [Num 2; Null])
     (rows (mkDataFrame (columns Examples.frame_with_null)
                        (rows Examples.frame_with_null))).
Proof.
  apply (clean_dataset_keeps_null_targets Examples.frame_with_null
           "none" false "x"%string "iqr"%string
           (mkDataFrame (columns Examples.frame_with_null)
                        (rows Examples.frame_with_null))
           1%nat float64 (1%Z, [Num 2; Null])).
  - vm_compute. repeat (apply NoDup_cons; [simpl; intuition discriminate|]).
    apply NoDup_nil.
  - discriminate.
  - reflexivity.
  - vm_compute. reflexivity.
  - simpl. auto.
  - reflexivity.
Defined.

(** ** Outlier removal against the outlier report *)

Section ExclusiveComparisons.

(** A cell outside the bounds is not inside them, whatever the bounds. *)
Lemma iqr_exclusive (lo hi : npfloat) (v : value) :
  DataCleaningService.value_lt v lo || DataCleaningService.value_gt v hi = true ->
  DataCleaningService.value_ge v lo && DataCleaningService.value_le v hi = false.
Proof.
  unfold DataCleaningService.value_lt, DataCleaningService.value_gt,
    DataCleaningService.value_ge, DataCleaningService.value_le.
  destruct (as_number v) as [x|]; [|discriminate].
  destruct lo as [l| |sl], hi as [h| |sh]; simpl; unfold Qlt_bool;
    try destruct (Qle_bool l x); try destruct (Qle_bool x h);
    try destruct sl; try destruct sh; simpl; congruence.
Qed.

(** A z-score above the threshold is not at or below it. *)
Lemma zscore_exclusive (z : zval) :
  zabs_gt z (inject_Z 3) = true -> zabs_le z 3 = false.
Proof.
  unfold zabs_gt, zabs_le, Qlt_bool. change (inject_Z 3) with 3.
  destruct (negb (z_isnan z)); simpl; [|discriminate].
  destruct (Qle_bool (z_dev z * z_dev z) (3 * 3 * z_var z)); simpl; congruence.
Qed.

Lemma column_labels (df : DataFrame) (c : string) (s : Series) :
  NoDup (index df) ->
  getitem df c = Ok s ->
  NoDup (map fst (s_items (dropna_series s))) /\
  incl (map fst (s_items (dropna_series s))) (map fst (rows df)).
Proof.
  intros Hnd Hget. split.
  - unfold getitem in Hget.
    destruct (get_loc c (columns df)) as [[j t]|]; [|discriminate].
    injection Hget as <-. unfold dropna_series. cbn [s_items].
    apply NoDup_map_fst_filter. rewrite map_map. exact Hnd.
  - intros l Hl. apply in_map_iff in Hl. destruct Hl as (p & <- & Hp).
    apply (dropna_series_In df c s p Hget Hp).
Qed.

Lemma Ok_injective {A : Type} (a b : A) : Ok a = Ok b -> a = b.
Proof. intros H. congruence. Qed.

End ExclusiveComparisons.

(** X12.  Stage 3 of [clean_dataset] against [detect_outliers] on the frame
    that reaches it (after stages 1 and 2), with a unique index: whenever
    both answer, no row whose index [detect_outliers] lists is left in the
    cleaned frame, every row of the cleaned frame is a row of the frame
    that reached the stage, and the rows left together with the outliers
    counted are at most the rows that reached the stage. *)
Theorem clean_dataset_removes_detected_outliers :
  forall df hm (rd : bool) c method info cleaned,
    let staged :=
      if rd
      then drop_duplicates (DataCleaningService.handle_missing_values hm df)
      else DataCleaningService.handle_missing_values hm df in
    NoDup (index df) ->
    c <> ""%string ->
    DataCleaningService.detect_outliers staged c method = Ok info ->
    DataCleaningService.clean_dataset df hm rd true (Some c) method = Ok cleaned ->
    (len cleaned + DataCleaningService.total_outliers info <= len staged)%nat /\
    (forall r, In r (rows cleaned) ->
               In r (rows staged)
               /\ ~ In (fst r) (DataCleaningService.outlier_indices info)).
Proof.
  intros df hm rd c method info cleaned staged Hnd Hc Hdet Hclean.
  pose proof (staged_unique hm rd df Hnd) as Huniq. fold staged in Huniq.
  unfold DataCleaningService.detect_outliers in Hdet.
  destruct (getitem staged c) as [s|e] eqn:Hget; [|discriminate].
  cbv beta iota delta [bind] in Hdet.
  unfold DataCleaningService.clean_dataset in Hclean.
  rewrite (truthy_nonempty c Hc) in Hclean. cbn [andb] in Hclean.
  fold staged in Hclean.
  unfold DataCleaningService.remove_outlier_rows in Hclean.
  rewrite (getitem_has_column staged c s Hget), Hget in Hclean.
  cbv beta iota delta [negb bind] in Hclean.
  unfold DataCleaningService.keep_mask in Hclean.
  destruct (column_labels staged c s Huniq Hget) as [Hlab Hincl].
  remember (dropna_series s) as data eqn:Edata.
  destruct (String.eqb method "zscore").
  - destruct (zscore data) as [zs|e] eqn:Hz; [|discriminate].
    cbv beta iota zeta delta [bind] in Hdet, Hclean.
    apply Ok_injective in Hdet, Hclean. subst info cleaned.
    cbn [DataCleaningService.total_outliers DataCleaningService.outlier_indices].
    unfold len, boolean_index, index, DataCleaningService.select. cbn [rows].
    pose proof (zscore_length data zs Hz) as Hlen.
    split.
    + apply (kept_rows_length zval (rows staged) (s_items data) zs
               (fun z => zabs_gt z (inject_Z 3)) (fun z => zabs_le z 3)
               Hlen Hlab Hincl).
      intros z _. apply zscore_exclusive.
    + intros r Hr.
      destruct (kept_rows_not_flagged zval (rows staged) (s_items data) zs
                  (fun z => zabs_gt z (inject_Z 3)) (fun z => zabs_le z 3)
                  Hlen Hlab (fun z _ => zscore_exclusive z) r Hr) as [Hin Hno].
      split; [exact Hin|]. intros Hf. apply Hno. apply (In_firstn_In _ _ _ Hf).
  - destruct (String.eqb method "iqr"); [|discriminate].
    destruct (series_quantile data (1 # 4)) as [q1|e]; [|discriminate].
    destruct (series_quantile data (3 # 4)) as [q3|e]; [|discriminate].
    cbv beta iota delta [bind] in Hdet, Hclean.
    destruct (DataCleaningService.iqr_bounds q1 q3) as [lo hi].
    cbv zeta in Hdet. apply Ok_injective in Hdet, Hclean. subst info cleaned.
    cbn [DataCleaningService.total_outliers DataCleaningService.outlier_indices].
    unfold len, boolean_index, index, DataCleaningService.select. cbn [rows].
    split.
    + apply (kept_rows_length (Z * value) (rows staged) (s_items data) (s_items data)
               (fun p => DataCleaningService.value_lt (snd p) lo
                         || DataCleaningService.value_gt (snd p) hi)
               (fun p => DataCleaningService.value_ge (snd p) lo
                         && DataCleaningService.value_le (snd p) hi)
               eq_refl Hlab Hincl).
      intros p _. apply iqr_exclusive.
    + intros r Hr.
      destruct (kept_rows_not_flagged (Z * value) (rows staged) (s_items data)
                  (s_items data)
                  (fun p => DataCleaningService.value_lt (snd p) lo
                            || DataCleaningService.value_gt (snd p) hi)
                  (fun p => DataCleaningService.value_ge (snd p) lo
                            && DataCleaningService.value_le (snd p) hi)
                  eq_refl Hlab (fun p _ => iqr_exclusive lo hi (snd p)) r Hr)
        as [Hin Hno].
      split; [exact Hin|]. intros Hf. apply Hno. apply (In_firstn_In _ _ _ Hf).
Qed.

Lemma clean_dataset_removes_detected_outliers_witness :
  exists info cleaned,
    DataCleaningService.detect_outliers
      (DataCleaningService.handle_missing_values "drop" Examples.spec_column)
      "x" "iqr" = Ok info /\
    DataCleaningService.clean_dataset Examples.spec_column
      "drop" false true (Some "x"%string) "iqr" = Ok cleaned /\
    (len cleaned + DataCleaningService.total_outliers info
     <= len (DataCleaningService.handle_missing_values "drop" Examples.spec_column))%nat /\
    (forall r, In r (rows cleaned) ->
               In r (rows (DataCleaningService.handle_missing_values
                             "drop" Examples.spec_column))
               /\ ~ In (fst r) (DataCleaningService.outlier_indices info)).
Proof.
  do 2 eexists.
  split; [vm_compute; reflexivity|]. split; [vm_compute; reflexivity|].
  apply (clean_dataset_removes_detected_outliers Examples.spec_column "drop" false
           "x"%string "iqr"%string).
  - vm_compute. repeat (apply NoDup_cons; [simpl; intuition discriminate|]).
    apply NoDup_nil.
  - discriminate.
  - vm_compute. reflexivity.
  - vm_compute. reflexivity.
Defined.

(** ** Missing values after a fill policy *)

Section FillAndMissing.

Variable agg : list Q -> npfloat.

Lemma fillna_numeric_cell (df : DataFrame) (k : nat) (name : string) (t : dtype)
      (r : Z * list value) :
  Spec.rectangular df ->
  nth_error (columns df) k = Some (name, t) ->
  In r (rows df) ->
  nth k (fill_row (fill_values agg 0 (columns df) (rows df)) (snd r)) Null
  = Spec.fill_cell
      (if is_np_number t then agg (column_numbers k (rows df)) else nan)
      (nth k (snd r) Null).
Proof.
  intros Hrect Hnth Hr.
  assert (Hk : (k < List.length (snd r))%nat).
  { rewrite (Hrect r Hr). apply nth_error_Some. congruence. }
  rewrite (fill_row_nth _ _ _ Hk).
  rewrite (fill_values_nth agg (rows df) (columns df) 0 k name t Hnth).
  cbn [Nat.add]. unfold Spec.fill_cell.
  destruct (is_np_number t); [|destruct (nth k (snd r) Null); reflexivity].
  destruct (agg (column_numbers k (rows df))); destruct (nth k (snd r) Null); reflexivity.
Qed.

Lemma fillna_numeric_missing_count (df : DataFrame) (k : nat) (name : string) (t : dtype) :
  Spec.rectangular df ->
  nth_error (columns df) k = Some (name, t) ->
  DataCleaningService.missing_count k (rows (fillna_numeric agg df))
  = List.length
      (filter (fun r => isnull
                          (Spec.fill_cell
                             (if is_np_number t
                              then agg (column_numbers k (rows df))
                              else nan)
                             (nth k (snd r) Null)))
              (rows df)).
Proof.
  intros Hrect Hnth. unfold DataCleaningService.missing_count, fillna_numeric.
  cbn [rows]. rewrite filter_map_swap, length_map. f_equal.
  apply filter_ext_in. intros r Hr. cbn [snd]. f_equal.
  apply (fillna_numeric_cell df k name t r Hrect Hnth Hr).
Qed.

End FillAndMissing.

Lemma missing_total_mono (rs rs' : list (Z * list value)) (cols : list (string * dtype)) :
  forall j,
    (forall k, (j <= k < j + List.length cols)%nat ->
               (DataCleaningService.missing_count k rs'
                <= DataCleaningService.missing_count k rs)%nat) ->
    (DataCleaningService.missing_total j cols rs'
     <= DataCleaningService.missing_total j cols rs)%nat.
Proof.
  induction cols as [|c cols IH]; intros j H; simpl; [lia|].
  assert (H0 : (DataCleaningService.missing_count j rs'
                <= DataCleaningService.missing_count j rs)%nat)
    by (apply H; simpl; lia).
  assert (H1 : (DataCleaningService.missing_total (S j) cols rs'
                <= DataCleaningService.missing_total (S j) cols rs)%nat)
    by (apply IH; intros k Hk; apply H; simpl; lia).
  lia.
Qed.

(** X20.  The "mean" and "median" policies never add a missing cell: the
    number of missing cells of a column is afterwards at most what it was
    before, and exactly what it was before when the column is not of
    integer or floating dtype or all its cells are missing; the total
    that [detect_missing_values] reports does not grow. *)
Theorem fill_policy_never_adds_missing :
  forall df (use_median : bool) k name t,
    let hm := if use_median then "median"%string else "mean"%string in
    let filled := DataCleaningService.handle_missing_values hm df in
    Spec.rectangular df ->
    nth_error (columns df) k = Some (name, t) ->
    (DataCleaningService.missing_count k (rows filled)
     <= DataCleaningService.missing_count k (rows df))%nat /\
    (is_np_number t = false
     \/ (forall r, In r (rows df) -> nth k (snd r) Null = Null) ->
     DataCleaningService.missing_count k (rows filled)
     = DataCleaningService.missing_count k (rows df)) /\
    (DataCleaningService.total_missing (DataCleaningService.detect_missing_values filled)
     <= DataCleaningService.total_missing (DataCleaningService.detect_missing_values df))%nat.
Proof.
  intros df use_median k name t hm filled Hrect Hnth.
  set (agg := if use_median then median else mean).
  assert (Ef : filled = fillna_numeric agg df)
    by (unfold filled, hm, agg; destruct use_median; reflexivity).
  assert (Hle : forall k' name' t',
             nth_error (columns df) k' = Some (name', t') ->
             (DataCleaningService.missing_count k' (rows (fillna_numeric agg df))
              <= DataCleaningService.missing_count k' (rows df))%nat).
  { intros k' name' t' Hnth'.
    rewrite (fillna_numeric_missing_count agg df k' name' t' Hrect Hnth').
    unfold DataCleaningService.missing_count. apply filter_length_mono.
    intros r _. apply fill_cell_isnull. }
  rewrite Ef. split; [apply (Hle k name t Hnth)|]. split.
  - intros Hcase.
    rewrite (fillna_numeric_missing_count agg df k name t Hrect Hnth).
    unfold DataCleaningService.missing_count. f_equal.
    apply filter_ext. intros r. f_equal.
    unfold agg. rewrite (aggregate_nan use_median t (column_numbers k (rows df)));
      [apply fill_cell_nan|].
    destruct Hcase as [Hnn | Hnull]; [left; exact Hnn | right].
    apply column_numbers_all_null. exact Hnull.
  - unfold DataCleaningService.detect_missing_values.
    cbn [DataCleaningService.total_missing].
    change (columns (fillna_numeric agg df)) with (columns df).
    apply missing_total_mono. intros k' Hk'.
    destruct (nth_error (columns df) k') as [[name' t']|] eqn:E.
    + apply (Hle k' name' t' E).
    + apply nth_error_None in E. lia.
Qed.

Lemma fill_policy_never_adds_missing_witness :
  (DataCleaningService.missing_count 1
     (rows (DataCleaningService.handle_missing_values "median"
              Examples.frame_with_null))
   <= DataCleaningService.missing_count 1 (rows Examples.frame_with_null))%nat /\
  (is_np_number float64 = false
   \/ (forall r, In r (rows Examples.frame_with_null) -> nth 1 (snd r) Null = Null) ->
   DataCleaningService.missing_count 1
     (rows (DataCleaningService.handle_missing_values "median"
              Examples.frame_with_null))
   = DataCleaningService.missing_count 1 (rows Examples.frame_with_null)) /\
  (DataCleaningService.total_missing
     (DataCleaningService.detect_missing_values
        (DataCleaningService.handle_missing_values "median" Examples.frame_with_null))
   <= DataCleaningService.total_missing
        (DataCleaningService.detect_missing_values Examples.frame_with_null))%nat.
Proof.
  apply (fill_policy_never_adds_missing Examples.frame_with_null true 1%nat
           "x"%string float64).
  - intros r Hr. simpl in Hr.
    destruct Hr as [<- | [<- | [<- | []]]]; reflexivity.
  - reflexivity.
Defined.
